(** * credebl-w3c-credential-issuance/scripts/generate-qr.py

    A shallow embedding of the QR-code generator script and the proofs of
    its behavioural specification.

    The script is a straight-line command-line program: it resolves its
    arguments, optionally performs one HTTP POST, calls the [qrcode]
    library and prints.  Its observable behaviour is the sequence of calls
    it makes to the outside (prints, the POST, the image save) and the way
    the process ends.  The embedding therefore runs in a small
    trace-and-outcome monad; everything the script only reads from the
    outside (the environment variable, the clock, the answer of the HTTP
    server, whether a library call raises) is a field of [World]. *)

From Stdlib Require Import ZArith String Ascii List DecimalString Lia.
From stdpp Require Import gmap strings list fin_maps.

Set Warnings "-register-all".
Local Open Scope Z_scope.

(* ===================================================================== *)
(** ** Python values *)
(* ===================================================================== *)

(** A [str] is represented by its UTF-8 bytes.  [value] covers what
    [response.json()] can return; a float is carried by its [repr]. *)
Inductive value :=
| VNone
| VBool (b : bool)
| VInt (z : Z)
| VFloat (repr : string)
| VStr (s : string)
| VList (l : list value)
| VDict (d : gmap string value).

(** Exceptions that can escape a call.  [RequestException] stands for
    [requests.exceptions.RequestException] and all its subclasses
    (ConnectionError, Timeout, HTTPError, JSONDecodeError, ...); its
    argument is [str(e)]. *)
Inductive exn :=
| RequestException (msg : string)
| AttributeError
| TypeError
| LibraryError (msg : string).

(** Truthiness, as used by [or], [if x] and [not x]. *)
Definition str_truthy (s : string) : bool :=
  match s with EmptyString => false | String _ _ => true end.

Definition opt_truthy (o : option string) : bool :=
  match o with None => false | Some s => str_truthy s end.

(** [a or b] on values that are [None] or a [str]. *)
Definition py_or (a b : option string) : option string :=
  if opt_truthy a then a else b.

(** [str(n)] for an [int]. *)
Definition str_of_int (n : Z) : string := NilZero.string_of_int (Z.to_int n).

(** [str.replace(old, new)] for a one-character [old]. *)
Fixpoint replace_char (old : ascii) (new : string) (s : string) : string :=
  match s with
  | EmptyString => EmptyString
  | String c s' =>
      if Ascii.eqb c old then new +:+ replace_char old new s'
      else String c (replace_char old new s')
  end.

(* ===================================================================== *)
(** ** datetime *)
(* ===================================================================== *)

Record datetime := {
  year : Z; month : Z; day : Z; hour : Z; minute : Z; second : Z
}.

(** Left padding with zeros up to [width] characters. *)
Definition zfill (width : nat) (s : string) : string :=
  String.concat "" (repeat "0"%string (width - String.length s)) +:+ s.

(** [strftime("%Y%m%d_%H%M%S")]: all fields are zero padded decimals, the
    year on four digits and the others on two (for the years from 1000
    on, where every C library agrees). *)
Definition strftime_Ymd_HMS (t : datetime) : string :=
  zfill 4 (str_of_int (year t)) +:+ zfill 2 (str_of_int (month t)) +:+
  zfill 2 (str_of_int (day t)) +:+ "_" +:+
  zfill 2 (str_of_int (hour t)) +:+ zfill 2 (str_of_int (minute t)) +:+
  zfill 2 (str_of_int (second t)).

(* ===================================================================== *)
(** ** urllib / requests *)
(* ===================================================================== *)

Module Urllib.

(** [_ALWAYS_SAFE]: ASCII letters, digits and [_.-~]. *)
Definition always_safe (c : ascii) : bool :=
  let n := nat_of_ascii c in
  ((65 <=? n)%nat && (n <=? 90)%nat)
  || ((97 <=? n)%nat && (n <=? 122)%nat)
  || ((48 <=? n)%nat && (n <=? 57)%nat)
  || Ascii.eqb c "_" || Ascii.eqb c "." || Ascii.eqb c "-" || Ascii.eqb c "~".

Definition hex_digit (n : nat) : ascii :=
  match n with
  | 0 => "0" | 1 => "1" | 2 => "2" | 3 => "3" | 4 => "4" | 5 => "5"
  | 6 => "6" | 7 => "7" | 8 => "8" | 9 => "9" | 10 => "A" | 11 => "B"
  | 12 => "C" | 13 => "D" | 14 => "E" | _ => "F"
  end%nat%char.

(** ["%{:02X}".format(byte)] *)
Definition percent (c : ascii) : string :=
  let n := nat_of_ascii c in
  String "%" (String (hex_digit (n / 16)) (String (hex_digit (n mod 16)) EmptyString)).

(** [urllib.parse.quote(s)] with its default [safe='/'], which is what
    [requests.utils.quote] is. *)
Fixpoint quote (s : string) : string :=
  match s with
  | EmptyString => EmptyString
  | String c s' =>
      if always_safe c || Ascii.eqb c "/" then String c (quote s')
      else percent c +:+ quote s'
  end.

End Urllib.

Module Requests.

(** The arguments of [requests.post(url, headers=, json=, timeout=)]. *)
Record Request := {
  req_url : string;
  req_headers : gmap string string;
  req_json : value;
  req_timeout : Z
}.

(** What [response.json()] does: return the decoded body or raise
    [requests.exceptions.JSONDecodeError], a [RequestException]. *)
Inductive JsonBody :=
| JsonValue (v : value)
| JsonDecodeError (msg : string).

Record Response := {
  status_code : Z;
  reason : string;
  url : string;
  body : JsonBody
}.

(** What [requests.post] does: raise a [RequestException] (connection
    refused, timeout, a header value it refuses, ...) or return a
    response.  The outcome depends on the request, not on the server
    alone: [requests] checks the headers before it sends anything. *)
Inductive PostOutcome :=
| PostRaises (msg : string)
| PostReturns (r : Response).

(** [Response.raise_for_status]: the message of the [HTTPError] it
    raises, which it does for the status codes 400 to 599 only. *)
Definition http_error_msg (r : Response) : option string :=
  if (400 <=? status_code r) && (status_code r <? 500) then
    Some (str_of_int (status_code r) +:+ " Client Error: " +:+ reason r
          +:+ " for url: " +:+ url r)
  else if (500 <=? status_code r) && (status_code r <? 600) then
    Some (str_of_int (status_code r) +:+ " Server Error: " +:+ reason r
          +:+ " for url: " +:+ url r)
  else None.

End Requests.
Import Requests.

(* ===================================================================== *)
(** ** qrcode *)
(* ===================================================================== *)

Inductive ErrorCorrection := ERROR_CORRECT_L | ERROR_CORRECT_M | ERROR_CORRECT_Q | ERROR_CORRECT_H.

(** A [qrcode.QRCode(...)] object after [add_data(data)] and [make(fit=)]. *)
Record QRCode := {
  version : Z;
  error_correction : ErrorCorrection;
  box_size : Z;
  border : Z;
  data : value;
  fit : bool
}.

(** What [create_qr_code] asks of the library in lines 44 to 54: the
    code, [make_image(fill_color=, back_color=)] and [save(path)]. *)
Record Image := {
  img_qr : QRCode;
  img_fill_color : string;
  img_back_color : string;
  img_path : string
}.

(* ===================================================================== *)
(** ** The outside world, events and the script monad *)
(* ===================================================================== *)

Record World := {
  (** [requests is not None]: the import at the top of the script worked *)
  requests_installed : bool;
  (** [os.environ.get("CREDEBL_API_KEY")] *)
  environ_CREDEBL_API_KEY : option string;
  (** [datetime.now()] *)
  now : datetime;
  (** [os.path.abspath] *)
  abspath : string -> string;
  (** the answer to the POST *)
  post : Request -> PostOutcome;
  (** the library calls of lines 44 to 54, from [QRCode(...)] to
      [img.save(path)]: the exception the first failing one raises, if any
      (a ValueError of [QRCode(...)] for a box size that is not positive, a
      DataOverflowError of [make], an error of [save]); the file is
      written when there is none *)
  save_raises : Image -> option exn;
  (** the library calls of lines 94 to 104, from [QRCode(...)] to
      [qr.print_ascii(...)]: the exception they raise, if any *)
  print_ascii_raises : QRCode -> option exn
}.

Inductive event :=
| Print (line : string)
    (** [print(line)] of a [str]; [print()] is [Print ""] *)
| PrintStr (pre : string) (v : value)
    (** [print(f"{pre}{v}")]: [pre] followed by [str(v)] *)
| PrintHelp
    (** [parser.print_help()], on standard output *)
| PrintJson (v : value)
    (** [print(json.dumps(v, indent=2))] *)
| PrintAscii (qr : QRCode) (invert : bool)
    (** [qr.print_ascii(invert=)], on standard output *)
| HttpPost (r : Request)
    (** [requests.post] *)
| SaveImage (img : Image)
    (** [create_qr_code] goes into the library for [img] (lines 44 to 54);
        whether the file gets written is [save_raises] *).

Inductive outcome (A : Type) :=
| Returned (a : A)
| Exited (status : Z)      (** [sys.exit(status)] *)
| Raised (e : exn)         (** an exception nobody caught *).
Arguments Returned {A} a.
Arguments Exited {A} status.
Arguments Raised {A} e.

Definition M (A : Type) : Type := list event * outcome A.

Definition ret {A} (a : A) : M A := ([], Returned a).

Definition bind {A B} (m : M A) (k : A -> M B) : M B :=
  match m with
  | (t, Returned a) => let '(t', r) := k a in (t ++ t', r)
  | (t, Exited s) => (t, Exited s)
  | (t, Raised e) => (t, Raised e)
  end.

Declare Scope script_scope.
Delimit Scope script_scope with script.
Notation "x <- m ;; k" := (bind m (fun x => k))
  (at level 100, m at next level, right associativity) : script_scope.
Notation "m ;;; k" := (bind m (fun _ => k))
  (at level 100, right associativity) : script_scope.
Local Open Scope script_scope.

Definition emit (e : event) : M unit := ([e], Returned tt).
Definition print (line : string) : M unit := emit (Print line).
Definition sys_exit {A} (status : Z) : M A := ([], Exited status).
Definition raise {A} (e : exn) : M A := ([], Raised e).
Definition when (b : bool) (m : M unit) : M unit := if b then m else ret tt.

(** [try: body except requests.exceptions.RequestException as e: handler] *)
Definition try_except_RequestException {A} (body : M A) (handler : string -> M A) : M A :=
  match body with
  | (t, Raised (RequestException msg)) => let '(t', r) := handler msg in (t ++ t', r)
  | other => other
  end.

Definition trace {A} (m : M A) : list event := fst m.
Definition result {A} (m : M A) : outcome A := snd m.

(** The exit status of the process: an uncaught exception ends it with 1. *)
Definition exit_status (o : outcome unit) : Z :=
  match o with Returned _ => 0 | Exited s => s | Raised _ => 1 end.

(** Projections of a trace. *)
Definition is_stdout (e : event) : bool :=
  match e with HttpPost _ | SaveImage _ => false | _ => true end.

Definition stdout (t : list event) : list event := List.filter is_stdout t.

Definition posts (t : list event) : list Request :=
  omap (fun e => match e with HttpPost r => Some r | _ => None end) t.

Definition images (t : list event) : list Image :=
  omap (fun e => match e with SaveImage i => Some i | _ => None end) t.

(** [d.get(key, default)]; anything but a dict has no [get]. *)
Definition py_get (v : value) (key : string) (dflt : value) : M value :=
  match v with
  | VDict d => ret (default dflt (d !! key))
  | _ => raise AttributeError
  end.

(* ===================================================================== *)
(** ** Command line *)
(* ===================================================================== *)

(** What the user typed, as [argparse] sees it: a positional or an option
    that was not given is [None]. *)
Record CommandLine := {
  cl_invitation_url : option string;   (* first positional *)
  cl_output_file : option string;      (* second positional *)
  cl_from_api : bool;                  (* --from-api *)
  cl_base_url : option string;         (* -b, --base-url *)
  cl_api_key : option string;          (* -k, --api-key *)
  cl_label : option string;            (* -l, --label *)
  cl_output : option string;           (* -o, --output *)
  cl_size : option Z;                  (* -s, --size *)
  cl_terminal : bool;                  (* -t, --terminal *)
  cl_json : bool                       (* --json *)
}.

(** The namespace returned by [parser.parse_args()]. *)
Record Namespace := {
  invitation_url : option string;
  output_file : option string;
  from_api : bool;
  base_url : string;
  api_key : string;
  label : string;
  output_file_flag : option string;
  size : Z;
  terminal : bool;
  json : bool
}.

Section Script.

Variable w : World.

(** The namespace of a command line that [parser.parse_args()] accepts:
    each field is the value given or the [default=] of its
    [add_argument].  What [parse_args] does with the other command lines
    is [Invocation], below. *)
Definition parse_args (cl : CommandLine) : Namespace := {|
  invitation_url := cl_invitation_url cl;
  output_file := cl_output_file cl;
  from_api := cl_from_api cl;
  base_url := default "http://localhost:8004"%string (cl_base_url cl);
  api_key := default (default ""%string (environ_CREDEBL_API_KEY w)) (cl_api_key cl);
  label := default "CREDEBL Issuer"%string (cl_label cl);
  output_file_flag := cl_output cl;
  size := default 10 (cl_size cl);
  terminal := cl_terminal cl;
  json := cl_json cl
|}.

(** A library call that may raise. *)
Definition library_call (e : event) (raises : option exn) : M unit :=
  emit e;;; match raises with Some x => raise x | None => ret tt end.

(** The image [create_qr_code] builds and saves. *)
Definition qr_image (data : value) (output_file : string) (size : Z) : Image :=
  let qr := {| version := 1; error_correction := ERROR_CORRECT_L;
               box_size := size; border := 4; data := data; fit := true |} in
  {| img_qr := qr; img_fill_color := "black"; img_back_color := "white";
     img_path := output_file |}.

Definition create_qr_code (data : value) (output_file : string) (size : Z) : M string :=
  let img := qr_image data output_file size in
  library_call (SaveImage img) (save_raises w img);;;
  ret output_file.

Definition invitation_payload (label : string) : value :=
  VDict (<["label" := VStr label]>
        (<["goalCode" := VStr "issue-vc"]>
        (<["goal" := VStr "Issue Verifiable Credential"]>
        (<["handshake" := VBool true]>
        (<["handshakeProtocols" :=
             VList [VStr "https://didcomm.org/didexchange/1.x";
                    VStr "https://didcomm.org/connections/1.x"]]>
        (<["autoAcceptConnection" := VBool true]> ∅)))))).

Definition invitation_request (base_url api_key label : string) : Request := {|
  req_url := base_url +:+ "/didcomm/oob/create-invitation";
  req_headers := <["authorization" := api_key]>
                 (<["Content-Type" := "application/json"%string]> ∅);
  req_json := invitation_payload label;
  req_timeout := 30
|}.

Definition requests_post (r : Request) : M Response :=
  emit (HttpPost r);;;
  match post w r with
  | PostRaises msg => raise (RequestException msg)
  | PostReturns resp => ret resp
  end.

Definition raise_for_status (r : Response) : M unit :=
  match http_error_msg r with
  | Some msg => raise (RequestException msg)
  | None => ret tt
  end.

Definition response_json (r : Response) : M value :=
  match body r with
  | JsonValue v => ret v
  | JsonDecodeError msg => raise (RequestException msg)
  end.

Definition create_invitation_from_api (base_url api_key label : string) : M value :=
  when (negb (requests_installed w))
    (print "Error: requests package not installed.";;;
     print "Run: pip install requests";;;
     sys_exit 1);;;
  try_except_RequestException
    (response <- requests_post (invitation_request base_url api_key label);;
     raise_for_status response;;;
     response_json response)
    (fun e =>
       print ("Error creating invitation: " +:+ e);;;
       sys_exit 1).

(** The code [print_terminal_qr] builds. *)
Definition terminal_qr (data : value) : QRCode :=
  {| version := 1; error_correction := ERROR_CORRECT_L;
     box_size := 1; border := 2; data := data; fit := true |}.

Definition print_terminal_qr (data : value) : M unit :=
  let qr := terminal_qr data in
  library_call (PrintAscii qr true) (print_ascii_raises w qr).

(** Lines 174-178: the output file. *)
Definition resolve_output_file (args : Namespace) : string :=
  match py_or (output_file_flag args) (output_file args) with
  | Some f => f
  | None => "qr_" +:+ strftime_Ymd_HMS (now w) +:+ ".png"
  end.

(** Lines 180-213: the invitation URL. *)
Definition get_invitation_url (args : Namespace) : M value :=
  if from_api args then
    when (negb (str_truthy (api_key args)))
      (print "Error: API key required when using --from-api";;;
       print "Set CREDEBL_API_KEY environment variable or use --api-key";;;
       sys_exit 1);;;
    print "Creating invitation via API...";;;
    print ("  Base URL: " +:+ base_url args);;;
    print ("  Label: " +:+ label args);;;
    print "";;;
    invitation_data <- create_invitation_from_api (base_url args) (api_key args) (label args);;
    invitation_url <- py_get invitation_data "invitationUrl" VNone;;
    when (json args)
      (emit (PrintJson invitation_data);;;
       print "");;;
    print "Invitation created successfully!";;;
    record <- py_get invitation_data "outOfBandRecord" (VDict ∅);;
    record_id <- py_get record "id" (VStr "N/A");;
    emit (PrintStr "  OOB Record ID: " record_id);;;
    print "";;;
    ret invitation_url
  else if opt_truthy (invitation_url args) then
    ret (VStr (default ""%string (invitation_url args)))
  else
    print "Error: Either provide invitation_url or use --from-api";;;
    emit PrintHelp;;;
    sys_exit 1.

(** Line 233: [requests.utils.quote] wants a [str] (anything else makes
    [quote_from_bytes] raise a TypeError); without [requests] the URL must
    have a [replace] method. *)
Definition encode_url (invitation_url : value) : M string :=
  if requests_installed w then
    match invitation_url with
    | VStr s => ret (Urllib.quote s)
    | _ => raise TypeError
    end
  else
    match invitation_url with
    | VStr s => ret (replace_char "&" "%26" s)
    | _ => raise AttributeError
    end.

Definition qrserver_link (encoded_url : string) : string :=
  "https://api.qrserver.com/v1/create-qr-code/?size=300x300&data=" +:+ encoded_url.

(** Lines 215-238. *)
Definition generate (args : Namespace) (output_file : string) (invitation_url : value) : M unit :=
  print "Generating QR code...";;;
  create_qr_code invitation_url output_file (size args);;;
  print ("  Output: " +:+ abspath w output_file);;;
  print "";;;
  when (terminal args)
    (print "Terminal QR Code:";;;
     print_terminal_qr invitation_url;;;
     print "");;;
  print "Invitation URL:";;;
  emit (PrintStr "" invitation_url);;;
  print "";;;
  encoded_url <- encode_url invitation_url;;
  print "Online QR Generator:";;;
  print (qrserver_link encoded_url);;;
  print "";;;
  print "Done! Scan the QR code with your mobile wallet.".

Definition main_args (args : Namespace) : M unit :=
  let output_file := resolve_output_file args in
  invitation_url <- get_invitation_url args;;
  generate args output_file invitation_url.

Definition main (cl : CommandLine) : M unit := main_args (parse_args cl).

End Script.

(* ===================================================================== *)
(** ** Sample worlds and command lines *)
(* ===================================================================== *)

Module Sample.

(** The response of testable property 4 of the specification. *)
Definition invitation : value :=
  VDict (<["invitationUrl" := VStr "https://x?oob=Y"]>
        (<["outOfBandRecord" := VDict {[ "id" := VStr "rec-1" ]}]> ∅)).

Definition response (status : Z) (reason : string) (b : JsonBody) : PostOutcome :=
  PostReturns {| status_code := status; reason := reason;
                 url := "http://localhost:8004/didcomm/oob/create-invitation";
                 body := b |}.

(** A machine where the libraries never fail, at 2024-01-02 03:04:05. *)
Definition world (installed : bool) (key : option string) (answer : PostOutcome) : World := {|
  requests_installed := installed;
  environ_CREDEBL_API_KEY := key;
  now := {| year := 2024; month := 1; day := 2; hour := 3; minute := 4; second := 5 |};
  abspath := fun p => "/work/" +:+ p;
  post := fun _ => answer;
  save_raises := fun _ => None;
  print_ascii_raises := fun _ => None
|}.

(** [generate-qr.py]: no argument at all. *)
Definition bare : CommandLine := {|
  cl_invitation_url := None; cl_output_file := None; cl_from_api := false;
  cl_base_url := None; cl_api_key := None; cl_label := None; cl_output := None;
  cl_size := None; cl_terminal := false; cl_json := false
|}.

(** [generate-qr.py <u>] *)
Definition direct (u : string) : CommandLine := {|
  cl_invitation_url := Some u; cl_output_file := None; cl_from_api := false;
  cl_base_url := None; cl_api_key := None; cl_label := None; cl_output := None;
  cl_size := None; cl_terminal := false; cl_json := false
|}.

(** [generate-qr.py --from-api] *)
Definition api : CommandLine := {|
  cl_invitation_url := None; cl_output_file := None; cl_from_api := true;
  cl_base_url := None; cl_api_key := None; cl_label := None; cl_output := None;
  cl_size := None; cl_terminal := false; cl_json := false
|}.

(** [generate-qr.py --from-api -k k <u>] *)
Definition api_and_url (u : string) : CommandLine := {|
  cl_invitation_url := Some u; cl_output_file := None; cl_from_api := true;
  cl_base_url := None; cl_api_key := Some "k"%string; cl_label := None; cl_output := None;
  cl_size := None; cl_terminal := false; cl_json := false
|}.

End Sample.

(* ===================================================================== *)
(** ** Vocabulary of the specification *)
(* ===================================================================== *)

Section Vocabulary.

Variable w : World.

(** The POST of an invocation. *)
Definition the_request (args : Namespace) : Request :=
  invitation_request (base_url args) (api_key args) (label args).

(** The status lines printed before the POST. *)
Definition api_banner (args : Namespace) : list event :=
  [Print "Creating invitation via API...";
   Print ("  Base URL: " +:+ base_url args);
   Print ("  Label: " +:+ label args);
   Print ""].

(** The status lines printed after the POST. *)
Definition api_report (args : Namespace) (invitation_data record_id : value) : list event :=
  (if json args then [PrintJson invitation_data; Print ""] else [])
  ++ [Print "Invitation created successfully!";
      PrintStr "  OOB Record ID: " record_id;
      Print ""].

(** The two ways line 233 encodes a URL. *)
Definition encoded (invitation_url : string) : string :=
  if requests_installed w then Urllib.quote invitation_url
  else replace_char "&" "%26" invitation_url.

(** Standard output from "Generating QR code..." on, in a run that gets
    to the end. *)
Definition report (args : Namespace) (output_file invitation_url : string) : list event :=
  [Print "Generating QR code...";
   Print ("  Output: " +:+ abspath w output_file);
   Print ""]
  ++ (if terminal args
      then [Print "Terminal QR Code:";
            PrintAscii (terminal_qr (VStr invitation_url)) true;
            Print ""]
      else [])
  ++ [Print "Invitation URL:";
      PrintStr "" (VStr invitation_url);
      Print "";
      Print "Online QR Generator:";
      Print (qrserver_link (encoded invitation_url));
      Print "";
      Print "Done! Scan the QR code with your mobile wallet."].

(** An argument was given on the command line. *)
Definition supplied {A} (o : option A) : bool :=
  match o with Some _ => true | None => false end.

(** A run that ends as a usage error: an error line and the usage text on
    standard output, a failure status, no image. *)
Definition usage_failure (r : M unit) : Prop :=
  (exists msg, In (Print msg) (trace r))
  /\ In PrintHelp (trace r)
  /\ exit_status (result r) <> 0
  /\ images (trace r) = [].

(** The contract of section 4.1 as the specification words it: unless
    exactly one of the positional URL and [--from-api] is given, the run is
    a usage failure. *)
Definition exactly_one_source_contract (cl : CommandLine) : Prop :=
  xorb (supplied (cl_invitation_url cl)) (cl_from_api cl) = false ->
  usage_failure (main w cl).

(** The answer to the POST is a failure in the words of the
    specification: a transport error or a status outside 200..299. *)
Definition transport_error_or_non_2xx (o : PostOutcome) : Prop :=
  match o with
  | PostRaises _ => True
  | PostReturns r => ~ (200 <= status_code r < 300)
  end.

(** A run that ends as the specification's NetworkError: the message is
    printed, failure status, one POST and no more, no image. *)
Definition network_failure (r : M unit) : Prop :=
  (exists msg, In (Print ("Error creating invitation: " +:+ msg)) (trace r))
  /\ exit_status (result r) <> 0
  /\ length (posts (trace r)) = 1%nat
  /\ images (trace r) = [].

(** Section 4.2 as the specification words it. *)
Definition post_failure_contract (cl : CommandLine) : Prop :=
  let args := parse_args w cl in
  from_api args = true ->
  str_truthy (api_key args) = true ->
  requests_installed w = true ->
  transport_error_or_non_2xx (post w (the_request args)) ->
  network_failure (main w cl).

(** The output file in the words of the specification:
    [--output] if supplied, else the positional, else the default name. *)
Definition spec_output_file (cl : CommandLine) : string :=
  match cl_output cl with
  | Some f => f
  | None =>
      match cl_output_file cl with
      | Some f => f
      | None => "qr_" +:+ strftime_Ymd_HMS (now w) +:+ ".png"
      end
  end.

(** Section 4.2 as the specification words it: API mode with a key means
    exactly one POST. *)
Definition one_post_contract (cl : CommandLine) : Prop :=
  let args := parse_args w cl in
  from_api args = true ->
  str_truthy (api_key args) = true ->
  posts (trace (main w cl)) = [the_request args].

End Vocabulary.

(** The command line with its positional invitation URL taken away. *)
Definition without_invitation_url (cl : CommandLine) : CommandLine := {|
  cl_invitation_url := None;
  cl_output_file := cl_output_file cl;
  cl_from_api := cl_from_api cl;
  cl_base_url := cl_base_url cl;
  cl_api_key := cl_api_key cl;
  cl_label := cl_label cl;
  cl_output := cl_output cl;
  cl_size := cl_size cl;
  cl_terminal := cl_terminal cl;
  cl_json := cl_json cl
|}.

(** The two lines of a usage error. *)
Definition usage_event (e : event) : Prop :=
  e = PrintHelp \/ e = Print "Error: Either provide invitation_url or use --from-api".

(** The line of a network error. *)
Definition network_error_event (e : event) : Prop :=
  exists msg, e = Print ("Error creating invitation: " +:+ msg).

(** [all_chars p s]: every character of [s] satisfies [p]. *)
Fixpoint all_chars (p : ascii -> bool) (s : string) : bool :=
  match s with
  | EmptyString => true
  | String c s' => p c && all_chars p s'
  end.

(** The reserved characters of RFC 3986: gen-delims and sub-delims. *)
Definition reserved (c : ascii) : bool :=
  negb (all_chars (fun r => negb (Ascii.eqb c r)) ":/?#[]@!$&'()*+,;=").

(** Section 4.4 as the specification words it: whatever link a successful
    run prints has no reserved character left in its data parameter. *)
Definition link_fully_escaped (w : World) (cl : CommandLine) : Prop :=
  forall encoded_url,
    result (main w cl) = Returned tt ->
    In (Print (qrserver_link encoded_url)) (trace (main w cl)) ->
    all_chars (fun c => negb (reserved c)) encoded_url = true.

(* ===================================================================== *)
(** ** The script as a whole, and more vocabulary *)
(* ===================================================================== *)




(** The calls to [qr.print_ascii] of a trace. *)
Definition terminal_renderings (t : list event) : list (QRCode * bool) :=
  omap (fun e => match e with PrintAscii q i => Some (q, i) | _ => None end) t.

(** The world with no network and no environment: what is left when
    nothing of the API mode can matter. *)
Definition offline (w : World) : World := {|
  requests_installed := requests_installed w;
  environ_CREDEBL_API_KEY := None;
  now := now w;
  abspath := abspath w;
  post := fun _ => PostRaises "offline";
  save_raises := save_raises w;
  print_ascii_raises := print_ascii_raises w
|}.

(** The same world with another value for [CREDEBL_API_KEY]. *)
Definition with_environ (key : option string) (w : World) : World := {|
  requests_installed := requests_installed w;
  environ_CREDEBL_API_KEY := key;
  now := now w;
  abspath := abspath w;
  post := post w;
  save_raises := save_raises w;
  print_ascii_raises := print_ascii_raises w
|}.

(** The command line with its API options taken away. *)
Definition without_api_options (cl : CommandLine) : CommandLine := {|
  cl_invitation_url := cl_invitation_url cl;
  cl_output_file := cl_output_file cl;
  cl_from_api := cl_from_api cl;
  cl_base_url := None;
  cl_api_key := None;
  cl_label := None;
  cl_output := cl_output cl;
  cl_size := cl_size cl;
  cl_terminal := cl_terminal cl;
  cl_json := false
|}.

(** The command line with another [--api-key]. *)
Definition with_api_key (key : string) (cl : CommandLine) : CommandLine := {|
  cl_invitation_url := cl_invitation_url cl;
  cl_output_file := cl_output_file cl;
  cl_from_api := cl_from_api cl;
  cl_base_url := cl_base_url cl;
  cl_api_key := Some key;
  cl_label := cl_label cl;
  cl_output := cl_output cl;
  cl_size := cl_size cl;
  cl_terminal := cl_terminal cl;
  cl_json := cl_json cl
|}.

(** A time [datetime.now()] can return in a year of four digits. *)
Definition valid_datetime (t : datetime) : Prop :=
  1000 <= year t <= 9999 /\ 1 <= month t <= 12 /\ 1 <= day t <= 31
  /\ 0 <= hour t <= 23 /\ 0 <= minute t <= 59 /\ 0 <= second t <= 59.

(** The number a string of decimal digits stands for. *)
Fixpoint decimal_value (acc : Z) (s : string) : Z :=
  match s with
  | EmptyString => acc
  | String c s' => decimal_value (10 * acc + (Z.of_nat (nat_of_ascii c) - 48)) s'
  end.

(** The value of a hexadecimal digit, in either case. *)
Definition hex_value (c : ascii) : option nat :=
  let n := nat_of_ascii c in
  if (48 <=? n)%nat && (n <=? 57)%nat then Some (n - 48)%nat
  else if (65 <=? n)%nat && (n <=? 70)%nat then Some (n - 55)%nat
  else if (97 <=? n)%nat && (n <=? 102)%nat then Some (n - 87)%nat
  else None.

(** Percent-decoding, the inverse of [Urllib.quote]: [%XX] becomes the
    byte [XX], anything else stays. *)
Fixpoint unquote (s : string) : string :=
  match s with
  | EmptyString => EmptyString
  | String c s' =>
      if Ascii.eqb c "%" then
        match s' with
        | String h (String l rest) =>
            match hex_value h, hex_value l with
            | Some a, Some b => String (ascii_of_nat (16 * a + b)) (unquote rest)
            | _, _ => String c (unquote s')
            end
        | _ => String c (unquote s')
        end
      else String c (unquote s')
  end.

(** A JSON value that is not an object. *)
Definition not_an_object (v : value) : Prop :=
  match v with VDict _ => False | _ => True end.

(* ===================================================================== *)
(** ** What is asked of the image library, and what is written *)
(* ===================================================================== *)

(** The image section 4.3 of the specification describes for the data [v]
    of a command line: version 1 with fit, error correction L, a border of
    4, the box size of [--size] (10 by default), black on white, at the
    resolved output path. *)
Definition spec_image (w : World) (cl : CommandLine) (v : value) : Image := {|
  img_qr := {| version := 1; error_correction := ERROR_CORRECT_L;
               box_size := default 10 (cl_size cl); border := 4;
               data := v; fit := true |};
  img_fill_color := "black";
  img_back_color := "white";
  img_path := resolve_output_file w (parse_args w cl)
|}.

(** [SaveImage img] in a trace says that [create_qr_code] went into the
    image library for [img]; the file is written only if none of the calls
    of lines 44 to 54 raises.  The images a run has written are therefore
    the image calls that the library completed. *)
Definition saved_images (w : World) (t : list event) : list Image :=
  List.filter
    (fun img => match save_raises w img with None => true | Some _ => false end)
    (images t).

(** Section 4.3 as the specification words it: for every invitation URL
    and every [--size], the image it describes is saved. *)
Definition every_size_saves_contract (w : World) (cl : CommandLine) : Prop :=
  forall url : string,
    cl_from_api cl = false ->
    cl_invitation_url cl = Some url ->
    str_truthy url = true ->
    saved_images w (trace (main w cl)) = [spec_image w cl (VStr url)].

(** The same machine with the [qrcode] library as it is on one point:
    [QRCode(...)] checks its box size and raises a ValueError when it is
    not positive. *)
Definition checked_box_size (w : World) : World := {|
  requests_installed := requests_installed w;
  environ_CREDEBL_API_KEY := environ_CREDEBL_API_KEY w;
  now := now w;
  abspath := abspath w;
  post := post w;
  save_raises := fun img =>
    if box_size (img_qr img) <=? 0
    then Some (LibraryError ("Invalid box size (was " +:+ str_of_int (box_size (img_qr img))
                             +:+ ", expected larger than 0)"))
    else save_raises w img;
  print_ascii_raises := print_ascii_raises w
|}.

(** [generate-qr.py -s <n> <u>] *)
Definition direct_with_size (u : string) (n : Z) : CommandLine := {|
  cl_invitation_url := Some u; cl_output_file := None; cl_from_api := false;
  cl_base_url := None; cl_api_key := None; cl_label := None; cl_output := None;
  cl_size := Some n; cl_terminal := false; cl_json := false
|}.

(** Section 4.2 as the specification words it: whenever a successful
    answer is an object without [invitationUrl], the first half of the run
    returns [None] and that is what the image is made from. *)
Definition none_passed_onward_contract (w : World) (cl : CommandLine) : Prop :=
  let args := parse_args w cl in
  forall (r : Response) (d : gmap string value),
    from_api args = true ->
    str_truthy (api_key args) = true ->
    requests_installed w = true ->
    post w (the_request args) = PostReturns r ->
    200 <= status_code r < 300 ->
    body r = JsonValue (VDict d) ->
    d !! "invitationUrl" = None ->
    result (get_invitation_url w args) = Returned VNone
    /\ map (fun img => data (img_qr img)) (images (trace (main w cl))) = [VNone].

(** What [generate] does up to the invitation URL when no library call
    raises. *)
Definition report_until_url (w : World) (args : Namespace) (output_file : string)
    (invitation_url : value) : list event :=
  [Print "Generating QR code...";
   SaveImage (qr_image invitation_url output_file (size args));
   Print ("  Output: " +:+ abspath w output_file);
   Print ""]
  ++ (if terminal args
      then [Print "Terminal QR Code:";
            PrintAscii (terminal_qr invitation_url) true;
            Print ""]
      else [])
  ++ [Print "Invitation URL:";
      PrintStr "" invitation_url;
      Print ""].

(* ===================================================================== *)
(** ** Laws of the script monad *)
(* ===================================================================== *)

Section Laws.

Context {A B : Type}.

Lemma trace_bind (m : M A) (k : A -> M B) :
  trace (bind m k) =
  trace m ++ match result m with Returned a => trace (k a) | _ => [] end.
Proof.
  destruct m as [t [a | s | e]]; cbn; [| by rewrite app_nil_r ..].
  by destruct (k a).
Qed.

Lemma result_bind (m : M A) (k : A -> M B) :
  result (bind m k) =
  match result m with
  | Returned a => result (k a)
  | Exited s => Exited s
  | Raised e => Raised e
  end.
Proof.
  destruct m as [t [a | s | e]]; cbn; try done.
  by destruct (k a).
Qed.

(** A run that returns went through both halves. *)
Lemma bind_returned (m : M A) (k : A -> M B) (b : B) :
  result (bind m k) = Returned b ->
  exists a, result m = Returned a /\ result (k a) = Returned b
            /\ trace (bind m k) = trace m ++ trace (k a).
Proof.
  rewrite result_bind, trace_bind.
  destruct (result m) as [a | s | e]; try done.
  intros H. by exists a.
Qed.

End Laws.

Lemma posts_app t t' : posts (t ++ t') = posts t ++ posts t'.
Proof. unfold posts. induction t as [| [] t IH]; cbn; by rewrite ?IH. Qed.

Lemma images_app t t' : images (t ++ t') = images t ++ images t'.
Proof. unfold images. induction t as [| [] t IH]; cbn; by rewrite ?IH. Qed.

Lemma stdout_app t t' : stdout (t ++ t') = stdout t ++ stdout t'.
Proof. unfold stdout. induction t as [| [] t IH]; cbn; by rewrite ?IH. Qed.

(* ===================================================================== *)
(** ** The paths through the script *)
(* ===================================================================== *)

Section Paths.

Variable w : World.

(** [create_invitation_from_api], path by path. *)
Lemma create_invitation_from_api_cases base key lbl :
  create_invitation_from_api w base key lbl =
  if requests_installed w then
    let r := invitation_request base key lbl in
    match post w r with
    | PostRaises msg =>
        ([HttpPost r; Print ("Error creating invitation: " +:+ msg)], Exited 1)
    | PostReturns resp =>
        match http_error_msg resp with
        | Some msg =>
            ([HttpPost r; Print ("Error creating invitation: " +:+ msg)], Exited 1)
        | None =>
            match body resp with
            | JsonValue v => ([HttpPost r], Returned v)
            | JsonDecodeError msg =>
                ([HttpPost r; Print ("Error creating invitation: " +:+ msg)], Exited 1)
            end
        end
    end
  else
    ([Print "Error: requests package not installed.";
      Print "Run: pip install requests"], Exited 1).
Proof.
  unfold create_invitation_from_api, requests_post, raise_for_status, response_json.
  destruct (requests_installed w); [| reflexivity].
  cbn. destruct (post w _) as [msg | resp]; [reflexivity |].
  cbn. destruct (http_error_msg resp); [reflexivity |].
  destruct (body resp); reflexivity.
Qed.

(** The API branch of [get_invitation_url] once the key is there. *)
Lemma get_invitation_url_api args :
  from_api args = true ->
  str_truthy (api_key args) = true ->
  get_invitation_url w args =
  match create_invitation_from_api w (base_url args) (api_key args) (label args) with
  | (t, Returned (VDict d)) =>
      match default (VDict ∅) (d !! "outOfBandRecord") with
      | VDict record =>
          (api_banner args ++ t
             ++ api_report args (VDict d) (default (VStr "N/A") (record !! "id")),
           Returned (default VNone (d !! "invitationUrl")))
      | _ =>
          (api_banner args ++ t
             ++ (if json args then [PrintJson (VDict d); Print ""] else [])
             ++ [Print "Invitation created successfully!"],
           Raised AttributeError)
      end
  | (t, Returned _) => (api_banner args ++ t, Raised AttributeError)
  | (t, Exited s) => (api_banner args ++ t, Exited s)
  | (t, Raised e) => (api_banner args ++ t, Raised e)
  end.
Proof.
  intros Hapi Hkey. unfold get_invitation_url, api_report. rewrite Hapi, Hkey.
  destruct (create_invitation_from_api w _ _ _) as [t [v | s | e]]; try reflexivity.
  destruct v as [| ? | ? | ? | ? | ? | d]; try (cbn; by rewrite app_nil_r).
  cbn [negb when bind ret print emit py_get app].
  destruct (default (VDict ∅) (d !! "outOfBandRecord")) as [| ? | ? | ? | ? | ? | record],
    (json args); cbn; by rewrite <- ?app_assoc.
Qed.

Lemma get_invitation_url_no_key args :
  from_api args = true ->
  str_truthy (api_key args) = false ->
  get_invitation_url w args =
  ([Print "Error: API key required when using --from-api";
    Print "Set CREDEBL_API_KEY environment variable or use --api-key"], Exited 1).
Proof. intros Hapi Hkey. unfold get_invitation_url. by rewrite Hapi, Hkey. Qed.

Lemma get_invitation_url_direct args :
  from_api args = false ->
  get_invitation_url w args =
  match invitation_url args with
  | Some (String c u) => ([], Returned (VStr (String c u)))
  | _ => ([Print "Error: Either provide invitation_url or use --from-api"; PrintHelp],
          Exited 1)
  end.
Proof.
  intros Hapi. unfold get_invitation_url. rewrite Hapi.
  by destruct (invitation_url args) as [[|c u] |].
Qed.

(** [generate] calls the image library exactly once, first thing. *)
Lemma images_generate args out v :
  images (trace (generate w args out v)) = [qr_image v out (size args)].
Proof.
  unfold generate, create_qr_code, print_terminal_qr, library_call, encode_url.
  destruct (save_raises w _), (terminal args), (print_ascii_raises w _),
    (requests_installed w), v; reflexivity.
Qed.

Lemma posts_generate args out v : posts (trace (generate w args out v)) = [].
Proof.
  unfold generate, create_qr_code, print_terminal_qr, library_call, encode_url.
  destruct (save_raises w _), (terminal args), (print_ascii_raises w _),
    (requests_installed w), v; reflexivity.
Qed.

(** [generate] never leaves through [sys.exit]. *)
Lemma generate_not_exited args out v s :
  result (generate w args out v) <> Exited s.
Proof.
  unfold generate, create_qr_code, print_terminal_qr, library_call, encode_url.
  destruct (save_raises w _), (terminal args), (print_ascii_raises w _),
    (requests_installed w), v; discriminate.
Qed.

(** A [generate] that returns was given a [str] and printed the report. *)
Lemma generate_returned args out v :
  result (generate w args out v) = Returned tt ->
  exists url, v = VStr url /\ stdout (trace (generate w args out v)) = report w args out url.
Proof.
  unfold generate, create_qr_code, print_terminal_qr, library_call, encode_url,
    report, encoded.
  destruct (save_raises w _), (terminal args), (print_ascii_raises w _),
    (requests_installed w), v; try discriminate; intros _; eexists; split; reflexivity.
Qed.

(** With anything but a [str], [generate] raises. *)
Lemma generate_not_str args out v :
  (forall s, v <> VStr s) -> exists e, result (generate w args out v) = Raised e.
Proof.
  intros Hv.
  unfold generate, create_qr_code, print_terminal_qr, library_call, encode_url.
  destruct (save_raises w _), (terminal args), (print_ascii_raises w _),
    (requests_installed w), v; try (by eexists); by destruct (Hv s).
Qed.

(** What [generate] prints as the invitation URL is its argument. *)
Lemma generate_prints args out v pre v' :
  In (PrintStr pre v') (trace (generate w args out v)) -> pre = ""%string /\ v' = v.
Proof.
  unfold generate, create_qr_code, print_terminal_qr, library_call, encode_url.
  destruct (save_raises w _), (terminal args), (print_ascii_raises w _),
    (requests_installed w), v; cbn; intros H;
    repeat (destruct H as [H | H]; [try discriminate; by inversion H |]); done.
Qed.

Lemma trace_main cl :
  trace (main w cl) =
  let args := parse_args w cl in
  trace (get_invitation_url w args)
  ++ match result (get_invitation_url w args) with
     | Returned v => trace (generate w args (resolve_output_file w args) v)
     | _ => []
     end.
Proof. unfold main, main_args. apply trace_bind. Qed.

Lemma result_main cl :
  result (main w cl) =
  let args := parse_args w cl in
  match result (get_invitation_url w args) with
  | Returned v => result (generate w args (resolve_output_file w args) v)
  | Exited s => Exited s
  | Raised e => Raised e
  end.
Proof. unfold main, main_args. apply result_bind. Qed.

End Paths.

Section Main.

Variable w : World.

Lemma images_get_invitation_url args :
  images (trace (get_invitation_url w args)) = [].
Proof.
  destruct (from_api args) eqn:Hapi.
  - destruct (str_truthy (api_key args)) eqn:Hkey.
    + rewrite get_invitation_url_api, create_invitation_from_api_cases by done.
      destruct (requests_installed w); [| done].
      cbn. destruct (post w _) as [msg | resp]; [done |].
      destruct (http_error_msg resp); [done |].
      destruct (body resp) as [[| ? | ? | ? | ? | ? | d] | msg]; try done.
      unfold api_report.
      by destruct (default (VDict ∅) (d !! "outOfBandRecord")), (json args).
    + by rewrite get_invitation_url_no_key.
  - rewrite get_invitation_url_direct by done.
    by destruct (invitation_url args) as [[| c u] |].
Qed.

Lemma posts_get_invitation_url args :
  posts (trace (get_invitation_url w args)) =
  if from_api args && str_truthy (api_key args) && requests_installed w
  then [the_request args] else [].
Proof.
  destruct (from_api args) eqn:Hapi.
  - destruct (str_truthy (api_key args)) eqn:Hkey.
    + rewrite get_invitation_url_api, create_invitation_from_api_cases by done.
      destruct (requests_installed w); [| done].
      cbn. destruct (post w _) as [msg | resp]; [done |].
      destruct (http_error_msg resp); [done |].
      destruct (body resp) as [[| ? | ? | ? | ? | ? | d] | msg]; try done.
      unfold api_report.
      by destruct (default (VDict ∅) (d !! "outOfBandRecord")), (json args).
    + by rewrite get_invitation_url_no_key.
  - rewrite get_invitation_url_direct by done.
    by destruct (invitation_url args) as [[| c u] |].
Qed.

(** The image calls of a whole run: one if the URL was obtained, none
    otherwise. *)
Lemma images_main cl :
  images (trace (main w cl)) =
  let args := parse_args w cl in
  match result (get_invitation_url w args) with
  | Returned v => [qr_image v (resolve_output_file w args) (size args)]
  | _ => []
  end.
Proof.
  rewrite trace_main. cbn zeta. rewrite images_app, images_get_invitation_url.
  destruct (result _); [apply images_generate | done ..].
Qed.

(** The POSTs of a whole run. *)
Lemma posts_main cl :
  posts (trace (main w cl)) =
  let args := parse_args w cl in
  if from_api args && str_truthy (api_key args) && requests_installed w
  then [the_request args] else [].
Proof.
  rewrite trace_main. cbn zeta. rewrite posts_app, posts_get_invitation_url.
  destruct (result _); rewrite ?posts_generate; apply app_nil_r.
Qed.

(** A run whose first half exits is that first half. *)
Lemma main_exited cl t s :
  get_invitation_url w (parse_args w cl) = (t, Exited s) ->
  main w cl = (t, Exited s).
Proof. intros H. unfold main, main_args. by rewrite H. Qed.

End Main.

(* ===================================================================== *)
(** ** Argument resolution (specification, section 4.1) *)
(* ===================================================================== *)

(** C1, amended.  When neither the positional invitation URL nor
    [--from-api] is supplied, the script prints an error line and the usage
    text on standard output and ends with exit status 1, and it has
    called neither the image library nor the HTTP library. *)
Theorem usage_error_when_no_source (w : World) (cl : CommandLine) :
  cl_invitation_url cl = None ->
  cl_from_api cl = false ->
  main w cl =
    ([Print "Error: Either provide invitation_url or use --from-api"; PrintHelp],
     Exited 1)
  /\ usage_failure (main w cl).
Proof.
  intros Hurl Hapi.
  assert (main w cl =
    ([Print "Error: Either provide invitation_url or use --from-api"; PrintHelp],
     Exited 1)) as ->.
  { apply main_exited. rewrite get_invitation_url_direct by done. cbn. by rewrite Hurl. }
  split; [done |]. repeat split; cbn; [eauto | auto | lia].
Qed.

Lemma usage_error_when_no_source_witness :
  main (Sample.world true None (PostRaises "unreachable")) Sample.bare =
    ([Print "Error: Either provide invitation_url or use --from-api"; PrintHelp],
     Exited 1)
  /\ usage_failure (main (Sample.world true None (PostRaises "unreachable")) Sample.bare).
Proof. apply usage_error_when_no_source; reflexivity. Defined.

(** C1 as the specification states it fails when both sources are given:
    [--from-api -k k <url>] with a server that answers is a successful
    run, which saves an image. *)
Lemma both_sources_is_not_a_usage_error :
  ~ exactly_one_source_contract
      (Sample.world true None (Sample.response 200 "OK" (JsonValue Sample.invitation)))
      (Sample.api_and_url "https://example.com?oob=ABC123").
Proof.
  intros H. destruct H as (_ & _ & _ & Himages); [reflexivity |].
  vm_compute in Himages. discriminate.
Qed.

(** C2.  With [--from-api], no [--api-key] and [CREDEBL_API_KEY] unset or
    empty, the script prints its two error lines and ends with exit status
    1; no POST was issued and no image was saved. *)
Theorem missing_api_key_fails_before_any_request (w : World) (cl : CommandLine) :
  cl_from_api cl = true ->
  cl_api_key cl = None ->
  environ_CREDEBL_API_KEY w = None \/ environ_CREDEBL_API_KEY w = Some ""%string ->
  main w cl =
    ([Print "Error: API key required when using --from-api";
      Print "Set CREDEBL_API_KEY environment variable or use --api-key"],
     Exited 1)
  /\ posts (trace (main w cl)) = []
  /\ images (trace (main w cl)) = []
  /\ exit_status (result (main w cl)) = 1.
Proof.
  intros Hapi Hflag Henv.
  assert (main w cl =
    ([Print "Error: API key required when using --from-api";
      Print "Set CREDEBL_API_KEY environment variable or use --api-key"],
     Exited 1)) as ->; [| done].
  apply main_exited, get_invitation_url_no_key; [done |].
  cbn. rewrite Hflag. by destruct Henv as [-> | ->].
Qed.

Lemma missing_api_key_fails_before_any_request_witness :
  posts (trace (main (Sample.world true (Some ""%string) (PostRaises "unreachable"))
                     Sample.api)) = [].
Proof.
  apply (missing_api_key_fails_before_any_request
           (Sample.world true (Some ""%string) (PostRaises "unreachable")) Sample.api);
    [reflexivity | reflexivity | right; reflexivity].
Defined.

(** Lines 174-178 in terms of the command line. *)
Lemma resolve_output_file_cases (w : World) (cl : CommandLine) :
  resolve_output_file w (parse_args w cl) =
    match cl_output cl with
    | Some (String c f) => String c f
    | _ =>
        match cl_output_file cl with
        | Some f => f
        | None => "qr_" +:+ strftime_Ymd_HMS (now w) +:+ ".png"
        end
    end.
Proof.
  unfold resolve_output_file, py_or. cbn.
  by destruct (cl_output cl) as [[| c f] |].
Qed.

(** C4, amended.  The output file is the value of [--output] when it is
    supplied and not empty, else the positional output file when it is
    supplied, else [qr_<YYYYMMDD_HHMMSS>.png] from the clock; and that is
    where every image of the run is saved. *)
Theorem output_file_resolution (w : World) (cl : CommandLine) :
  resolve_output_file w (parse_args w cl) =
    match cl_output cl with
    | Some (String c f) => String c f
    | _ =>
        match cl_output_file cl with
        | Some f => f
        | None => "qr_" +:+ strftime_Ymd_HMS (now w) +:+ ".png"
        end
    end
  /\ Forall (fun img => img_path img = resolve_output_file w (parse_args w cl))
       (images (trace (main w cl))).
Proof.
  split.
  - apply resolve_output_file_cases.
  - rewrite images_main. cbn zeta. destruct (result _); by repeat constructor.
Qed.

(** C4 as the specification states it fails on [-o "" <url> bar.png]: the
    empty [--output] value is skipped and [bar.png] is used. *)
Lemma empty_output_flag_is_skipped :
  let w := Sample.world true None (PostRaises "unreachable") in
  let cl := {| cl_invitation_url := Some "https://example.com?oob=ABC123"%string;
               cl_output_file := Some "bar.png"%string; cl_from_api := false;
               cl_base_url := None; cl_api_key := None; cl_label := None;
               cl_output := Some ""%string; cl_size := None;
               cl_terminal := false; cl_json := false |} in
  spec_output_file w cl = ""%string
  /\ resolve_output_file w (parse_args w cl) = "bar.png"%string
  /\ resolve_output_file w (parse_args w cl) <> spec_output_file w cl.
Proof. repeat split. discriminate. Qed.

(** The two examples of the specification: [--output foo.png] wins over a
    positional, and the default name carries the time to the second. *)
Example output_flag_wins (w : World) (cl : CommandLine) :
  cl_output cl = Some "foo.png"%string ->
  resolve_output_file w (parse_args w cl) = "foo.png"%string.
Proof. intros H. rewrite resolve_output_file_cases. by rewrite H. Qed.

Example default_output_file :
  resolve_output_file (Sample.world true None (PostRaises "unreachable"))
    (parse_args (Sample.world true None (PostRaises "unreachable"))
       (Sample.direct "https://example.com?oob=ABC123"))
  = "qr_20240102_030405.png"%string.
Proof. reflexivity. Qed.

(* ===================================================================== *)
(** ** Invitation acquisition (specification, section 4.2) *)
(* ===================================================================== *)

(** The run of an API invocation whose POST raised [msg]. *)
Lemma main_post_failed (w : World) (cl : CommandLine) (msg : string) :
  let args := parse_args w cl in
  from_api args = true ->
  str_truthy (api_key args) = true ->
  create_invitation_from_api w (base_url args) (api_key args) (label args) =
    ([HttpPost (the_request args); Print ("Error creating invitation: " +:+ msg)],
     Exited 1) ->
  main w cl =
    (api_banner args
       ++ [HttpPost (the_request args); Print ("Error creating invitation: " +:+ msg)],
     Exited 1).
Proof.
  intros args Hapi Hkey Hcreate.
  apply main_exited. fold args. by rewrite get_invitation_url_api, Hcreate.
Qed.

(** C3, amended.  In API mode, when the POST raises a transport error or
    its answer has a status from 400 to 599, the script prints
    "Error creating invitation: ..." and ends with exit status 1, having
    issued that one POST and saved no image. *)
Theorem post_failure_is_fatal (w : World) (cl : CommandLine) :
  let args := parse_args w cl in
  from_api args = true ->
  str_truthy (api_key args) = true ->
  requests_installed w = true ->
  match post w (the_request args) with
  | PostRaises _ => True
  | PostReturns r => 400 <= status_code r < 600
  end ->
  (exists msg,
     main w cl =
       (api_banner args
          ++ [HttpPost (the_request args); Print ("Error creating invitation: " +:+ msg)],
        Exited 1))
  /\ network_failure (main w cl).
Proof.
  intros args Hapi Hkey Hreq Hpost.
  assert (exists msg,
     main w cl =
       (api_banner args
          ++ [HttpPost (the_request args); Print ("Error creating invitation: " +:+ msg)],
        Exited 1)) as [msg Hmain].
  { pose proof (create_invitation_from_api_cases w (base_url args) (api_key args)
                  (label args)) as Hcreate.
    rewrite Hreq in Hcreate. cbn zeta in Hcreate. fold (the_request args) in Hcreate.
    destruct (post w (the_request args)) as [msg | r].
    - exists msg. by apply main_post_failed.
    - assert (exists msg, http_error_msg r = Some msg) as [msg Hmsg].
      { unfold http_error_msg.
        destruct (Z.leb_spec 400 (status_code r)), (Z.ltb_spec (status_code r) 500),
          (Z.leb_spec 500 (status_code r)), (Z.ltb_spec (status_code r) 600);
          cbn; eauto; lia. }
      rewrite Hmsg in Hcreate. exists msg. by apply main_post_failed. }
  split; [by exists msg |].
  rewrite Hmain. repeat split; cbn; [| lia].
  exists msg. do 5 right. by left.
Qed.

Lemma post_failure_is_fatal_witness :
  network_failure
    (main (Sample.world true (Some "k"%string)
             (Sample.response 404 "Not Found" (JsonValue Sample.invitation)))
          Sample.api).
Proof.
  apply (post_failure_is_fatal
           (Sample.world true (Some "k"%string)
              (Sample.response 404 "Not Found" (JsonValue Sample.invitation)))
           Sample.api); [reflexivity | reflexivity | reflexivity | cbn; lia].
Defined.

(** C3 as the specification states it fails on a status that is neither
    2xx nor an error for [raise_for_status]: a 300 answer carrying an
    invitation is taken as a success and the image is saved. *)
Lemma status_300_is_not_a_network_failure :
  ~ post_failure_contract
      (Sample.world true (Some "k"%string)
         (Sample.response 300 "Multiple Choices" (JsonValue Sample.invitation)))
      Sample.api.
Proof.
  intros H.
  destruct H as (_ & _ & _ & Himages);
    [reflexivity | reflexivity | reflexivity | cbn; lia |].
  vm_compute in Himages. discriminate.
Qed.

(** The body of the POST has the six fields of the specification and no
    other. *)
Lemma invitation_payload_fields (lbl : string) :
  exists d : gmap string value,
    invitation_payload lbl = VDict d
    /\ d !! "label" = Some (VStr lbl)
    /\ d !! "goalCode" = Some (VStr "issue-vc")
    /\ d !! "goal" = Some (VStr "Issue Verifiable Credential")
    /\ d !! "handshake" = Some (VBool true)
    /\ d !! "handshakeProtocols" =
         Some (VList [VStr "https://didcomm.org/didexchange/1.x";
                      VStr "https://didcomm.org/connections/1.x"])
    /\ d !! "autoAcceptConnection" = Some (VBool true)
    /\ base.size d = 6%nat.
Proof. eexists. split; [reflexivity |]. repeat split. Qed.

(** C5, amended.  In API mode with an API key and the [requests] library
    installed, the run issues exactly one POST: to
    [{base_url}/didcomm/oob/create-invitation], with the header
    [authorization] set to the key, a timeout of 30 seconds and the
    six-field JSON body.  Without the library the run prints how to install
    it and ends with exit status 1 before any request. *)
Theorem one_post_in_api_mode (w : World) (cl : CommandLine) :
  let args := parse_args w cl in
  from_api args = true ->
  str_truthy (api_key args) = true ->
  (if requests_installed w
   then posts (trace (main w cl)) = [the_request args]
   else main w cl =
          (api_banner args
             ++ [Print "Error: requests package not installed.";
                 Print "Run: pip install requests"],
           Exited 1)
        /\ posts (trace (main w cl)) = [])
  /\ req_url (the_request args) = base_url args +:+ "/didcomm/oob/create-invitation"
  /\ req_headers (the_request args) !! "authorization" = Some (api_key args)
  /\ req_timeout (the_request args) = 30
  /\ exists d : gmap string value,
       req_json (the_request args) = VDict d
       /\ d !! "label" = Some (VStr (label args))
       /\ d !! "goalCode" = Some (VStr "issue-vc")
       /\ d !! "goal" = Some (VStr "Issue Verifiable Credential")
       /\ d !! "handshake" = Some (VBool true)
       /\ d !! "handshakeProtocols" =
            Some (VList [VStr "https://didcomm.org/didexchange/1.x";
                         VStr "https://didcomm.org/connections/1.x"])
       /\ d !! "autoAcceptConnection" = Some (VBool true)
       /\ base.size d = 6%nat.
Proof.
  intros args Hapi Hkey. split; [| repeat split].
  - pose proof (posts_main w cl) as Hposts. cbn zeta in Hposts. fold args in Hposts.
    rewrite Hapi, Hkey in Hposts. cbn [andb] in Hposts.
    destruct (requests_installed w) eqn:Hreq; [done |]. split; [| done].
    apply main_exited. fold args.
    by rewrite get_invitation_url_api, create_invitation_from_api_cases, Hreq.
  - apply invitation_payload_fields.
Qed.

Lemma one_post_in_api_mode_witness :
  posts (trace (main (Sample.world true (Some "k"%string)
                        (Sample.response 200 "OK" (JsonValue Sample.invitation)))
                     Sample.api))
  = [the_request
       (parse_args (Sample.world true (Some "k"%string)
                      (Sample.response 200 "OK" (JsonValue Sample.invitation)))
                   Sample.api)].
Proof.
  apply (one_post_in_api_mode
           (Sample.world true (Some "k"%string)
              (Sample.response 200 "OK" (JsonValue Sample.invitation)))
           Sample.api); reflexivity.
Defined.

(** C5 as the specification states it fails when [requests] is not
    installed: the run ends before any POST. *)
Lemma no_post_without_requests :
  ~ one_post_contract
      (Sample.world false (Some "k"%string) (PostRaises "unreachable")) Sample.api.
Proof.
  intros H. specialize (H eq_refl eq_refl). vm_compute in H. discriminate.
Qed.

(** *** Which lines a run can print *)

(** Closes a goal [In e t -> False] where [t] is an explicit list whose
    elements all differ from [e] by a constructor. *)
Ltac not_in_trace :=
  let H := fresh "H" in
  unfold api_banner, api_report, qrserver_link; cbn; intros H;
  repeat (destruct H as [H | H]; [discriminate H |]);
  exact H.

Lemma generate_no_usage_event (w : World) args out v e :
  usage_event e -> ~ In e (trace (generate w args out v)).
Proof.
  unfold generate, create_qr_code, print_terminal_qr, library_call, encode_url.
  intros [-> | ->];
    destruct (save_raises w _), (terminal args), (print_ascii_raises w _),
      (requests_installed w), v; not_in_trace.
Qed.

Lemma generate_no_network_error_event (w : World) args out v e :
  network_error_event e -> ~ In e (trace (generate w args out v)).
Proof.
  unfold generate, create_qr_code, print_terminal_qr, library_call, encode_url.
  intros [msg ->];
    destruct (save_raises w _), (terminal args), (print_ascii_raises w _),
      (requests_installed w), v; not_in_trace.
Qed.

Lemma get_invitation_url_api_no_usage_event (w : World) args e :
  from_api args = true ->
  usage_event e -> ~ In e (trace (get_invitation_url w args)).
Proof.
  intros Hapi He.
  destruct (str_truthy (api_key args)) eqn:Hkey.
  - rewrite get_invitation_url_api, create_invitation_from_api_cases by done.
    destruct He as [-> | ->];
      (destruct (requests_installed w); [| not_in_trace]);
      (cbn zeta; destruct (post w _) as [msg | resp]; [not_in_trace |]);
      (destruct (http_error_msg resp); [not_in_trace |]);
      (destruct (body resp) as [[| ? | ? | ? | ? | ? | d] | msg]; try not_in_trace);
      unfold api_report;
      destruct (default (VDict ∅) (d !! "outOfBandRecord")), (json args);
      not_in_trace.
  - rewrite get_invitation_url_no_key by done.
    destruct He as [-> | ->]; not_in_trace.
Qed.

(** Closes [forall pre v, e = PrintStr pre v -> pre = "" -> _] and
    [~ network_error_event e] for an explicit event [e] that is neither. *)
Ltac events_differ :=
  first [ intros ? ? ? ?; simplify_eq
        | let msg := fresh "msg" in let H := fresh "H" in
          intros [msg H]; cbn in H; simplify_eq ].

Lemma http_error_msg_below_400 (r : Response) :
  status_code r < 400 -> http_error_msg r = None.
Proof.
  intros H. unfold http_error_msg.
  destruct (Z.leb_spec 400 (status_code r)), (Z.leb_spec 500 (status_code r));
    cbn; try done; lia.
Qed.

(** What the API run looks like once the server has answered with a body
    that [raise_for_status] lets through. *)
Lemma create_invitation_answered (w : World) (args : Namespace) (r : Response) :
  requests_installed w = true ->
  post w (the_request args) = PostReturns r ->
  http_error_msg r = None ->
  create_invitation_from_api w (base_url args) (api_key args) (label args) =
  match body r with
  | JsonValue v => ([HttpPost (the_request args)], Returned v)
  | JsonDecodeError msg =>
      ([HttpPost (the_request args); Print ("Error creating invitation: " +:+ msg)],
       Exited 1)
  end.
Proof.
  intros Hreq Hpost Herr.
  rewrite create_invitation_from_api_cases, Hreq. cbn zeta.
  fold (the_request args). by rewrite Hpost, Herr.
Qed.

(** The first half of an API run whose server sent the object [d]. *)
Lemma get_invitation_url_answered
    (w : World) (args : Namespace) (r : Response) (d : gmap string value) :
  from_api args = true ->
  str_truthy (api_key args) = true ->
  requests_installed w = true ->
  post w (the_request args) = PostReturns r ->
  200 <= status_code r < 300 ->
  body r = JsonValue (VDict d) ->
  get_invitation_url w args =
  match default (VDict ∅) (d !! "outOfBandRecord") with
  | VDict record =>
      (api_banner args ++ [HttpPost (the_request args)]
         ++ api_report args (VDict d) (default (VStr "N/A") (record !! "id")),
       Returned (default VNone (d !! "invitationUrl")))
  | _ =>
      (api_banner args ++ [HttpPost (the_request args)]
         ++ (if json args then [PrintJson (VDict d); Print ""] else [])
         ++ [Print "Invitation created successfully!"],
       Raised AttributeError)
  end.
Proof.
  intros Hapi Hkey Hreq Hpost Hstatus Hbody.
  rewrite get_invitation_url_api by done.
  rewrite (create_invitation_answered w args r) by
    (try done; apply http_error_msg_below_400; lia).
  by rewrite Hbody.
Qed.

(** When the image library raises, [generate] stops there. *)
Lemma generate_image_failure (w : World) args out v e :
  save_raises w (qr_image v out (size args)) = Some e ->
  generate w args out v =
    ([Print "Generating QR code..."; SaveImage (qr_image v out (size args))], Raised e).
Proof.
  intros Hsave. unfold generate, create_qr_code, library_call. cbn zeta.
  by rewrite Hsave.
Qed.

(** When the image library does its work, [generate] reports the path
    right after the image call. *)
Lemma generate_image_saved (w : World) args out v :
  save_raises w (qr_image v out (size args)) = None ->
  exists t,
    trace (generate w args out v) =
      [Print "Generating QR code...";
       SaveImage (qr_image v out (size args));
       Print ("  Output: " +:+ abspath w out)] ++ t.
Proof.
  intros Hsave. unfold generate, create_qr_code, library_call. cbn zeta.
  rewrite Hsave. cbn [bind emit print ret app].
  match goal with
  | |- context [bind ?m ?k] => destruct (bind m k) as [t r]
  end.
  by exists (Print "" :: t).
Qed.

(** Given anything but a [str], and libraries that do their work,
    [generate] gets as far as printing the value and dies on line 233. *)
Lemma generate_dies_on_the_link (w : World) args out v :
  (forall s, v <> VStr s) ->
  save_raises w (qr_image v out (size args)) = None ->
  (terminal args = true -> print_ascii_raises w (terminal_qr v) = None) ->
  generate w args out v =
    (report_until_url w args out v,
     Raised (if requests_installed w then TypeError else AttributeError)).
Proof.
  intros Hv Hsave Hascii.
  unfold generate, create_qr_code, print_terminal_qr, library_call, encode_url,
    report_until_url.
  cbn zeta. rewrite Hsave.
  destruct (terminal args); [rewrite Hascii by done |];
    destruct (requests_installed w), v; try reflexivity; by destruct (Hv s).
Qed.

(** C6, amended.  When the server answers 2xx with a JSON object that has
    no [invitationUrl], and whose [outOfBandRecord] is absent or an object,
    the first half of the run does not fail: it prints its status lines
    after the one POST and returns [None].  [None] is then what the one
    image call of the run is made from; no "Error creating invitation"
    line is printed and the run ends in an uncaught exception.  When the
    QR library does its work, [None] is printed as the invitation URL
    and the run dies right after, on line 233, with the TypeError of
    [quote(None)]. *)
Theorem missing_invitation_url_is_not_a_network_failure
    (w : World) (cl : CommandLine) (r : Response) (d record : gmap string value) :
  let args := parse_args w cl in
  let out := resolve_output_file w args in
  from_api args = true ->
  str_truthy (api_key args) = true ->
  requests_installed w = true ->
  post w (the_request args) = PostReturns r ->
  200 <= status_code r < 300 ->
  body r = JsonValue (VDict d) ->
  d !! "invitationUrl" = None ->
  default (VDict ∅) (d !! "outOfBandRecord") = VDict record ->
  get_invitation_url w args =
    (api_banner args ++ [HttpPost (the_request args)]
       ++ api_report args (VDict d) (default (VStr "N/A") (record !! "id")),
     Returned VNone)
  /\ images (trace (main w cl)) = [spec_image w cl VNone]
  /\ Forall (fun e => ~ network_error_event e) (trace (main w cl))
  /\ (exists e, result (main w cl) = Raised e)
  /\ (save_raises w (spec_image w cl VNone) = None ->
      (terminal args = true -> print_ascii_raises w (terminal_qr VNone) = None) ->
      main w cl =
        (api_banner args ++ [HttpPost (the_request args)]
           ++ api_report args (VDict d) (default (VStr "N/A") (record !! "id"))
           ++ report_until_url w args out VNone,
         Raised TypeError)).
Proof.
  intros args out Hapi Hkey Hreq Hpost Hstatus Hbody Hurl Hrecord.
  pose proof (get_invitation_url_answered w args r d Hapi Hkey Hreq Hpost Hstatus Hbody)
    as Hget.
  rewrite Hrecord, Hurl in Hget. cbn [default from_option id] in Hget.
  split; [exact Hget |].
  pose proof (trace_main w cl) as Htrace. pose proof (result_main w cl) as Hresult.
  pose proof (images_main w cl) as Himages.
  cbn zeta in Htrace, Hresult, Himages. fold args in Htrace, Hresult, Himages.
  rewrite Hget in Htrace, Hresult, Himages. cbn [trace result fst snd] in *.
  split; [exact Himages |]. split; [| split].
  - rewrite Htrace. unfold api_report. rewrite !Forall_app. repeat split;
      try match goal with |- context [json args] => destruct (json args) end;
      try (repeat constructor; events_differ).
    apply List.Forall_forall. intros e He Hne.
    exact (generate_no_network_error_event w _ _ _ e Hne He).
  - rewrite Hresult. apply generate_not_str. discriminate.
  - intros Hsave Hascii. unfold main, main_args. fold args. rewrite Hget.
    cbn [bind]. fold out.
    rewrite (generate_dies_on_the_link w args out VNone), Hreq by done.
    by rewrite <- !app_assoc.
Qed.

Lemma missing_invitation_url_is_not_a_network_failure_witness :
  let d : gmap string value := {[ "outOfBandRecord" := VDict {[ "id" := VStr "rec-1" ]} ]} in
  let w := Sample.world true (Some "k"%string)
             (Sample.response 200 "OK" (JsonValue (VDict d))) in
  images (trace (main w Sample.api)) = [spec_image w Sample.api VNone].
Proof.
  intros d w.
  apply (missing_invitation_url_is_not_a_network_failure w Sample.api
           {| status_code := 200; reason := "OK";
              url := "http://localhost:8004/didcomm/oob/create-invitation";
              body := JsonValue (VDict d) |}
           d {[ "id" := VStr "rec-1" ]});
    [reflexivity | reflexivity | reflexivity | reflexivity | cbn; lia
    | reflexivity | reflexivity | reflexivity].
Defined.

(** C6 as the specification states it fails on an answer whose
    [outOfBandRecord] is [null]: the run dies on the record line with an
    AttributeError and nothing is passed on, no image call is made. *)
Lemma null_record_passes_nothing_onward :
  let d : gmap string value := {[ "outOfBandRecord" := VNone ]} in
  let w := Sample.world true (Some "k"%string)
             (Sample.response 200 "OK" (JsonValue (VDict d))) in
  ~ none_passed_onward_contract w Sample.api.
Proof.
  intros d w H.
  destruct (H {| status_code := 200; reason := "OK";
                 url := "http://localhost:8004/didcomm/oob/create-invitation";
                 body := JsonValue (VDict d) |} d) as [Hresult _];
    [reflexivity | reflexivity | reflexivity | reflexivity | cbn; lia
    | reflexivity | reflexivity |].
  vm_compute in Hresult. discriminate.
Qed.

(** The run of that answer. *)
Example null_record_run :
  let d : gmap string value := {[ "outOfBandRecord" := VNone ]} in
  let w := Sample.world true (Some "k"%string)
             (Sample.response 200 "OK" (JsonValue (VDict d))) in
  main w Sample.api =
    (api_banner (parse_args w Sample.api)
       ++ [HttpPost (the_request (parse_args w Sample.api));
           Print "Invitation created successfully!"],
     Raised AttributeError).
Proof. reflexivity. Qed.

(* ===================================================================== *)
(** ** QR encoding and rendering (specification, section 4.3) *)
(* ===================================================================== *)

(** The images written by a run are those of its image calls that the
    library completed. *)
Lemma saved_images_main (w : World) (cl : CommandLine) (v : value) :
  result (get_invitation_url w (parse_args w cl)) = Returned v ->
  saved_images w (trace (main w cl)) =
    match save_raises w (spec_image w cl v) with
    | None => [spec_image w cl v]
    | Some _ => []
    end.
Proof.
  intros Hget. unfold saved_images. rewrite images_main. cbn zeta. rewrite Hget.
  change (qr_image v _ _) with (spec_image w cl v). cbn [List.filter].
  by destruct (save_raises w (spec_image w cl v)).
Qed.

(** C7, amended.  [create_qr_code] makes one call to the image library:
    version 1 with [fit], error correction L, the given box size, a border
    of 4, black on white, at the given path; it returns the path unless the
    library raises.  A run that has obtained its invitation URL makes
    exactly that call for the URL, with the value of [--size] (10 by
    default) and the resolved output file.  The image is written when the
    library accepts the call, and the run goes on to print its path; when
    the library raises, nothing is written and the run ends there with
    the exception. *)
Theorem file_qr_parameters (w : World) (cl : CommandLine) (v : value) :
  let args := parse_args w cl in
  let img :=
    {| img_qr := {| version := 1; error_correction := ERROR_CORRECT_L;
                    box_size := default 10 (cl_size cl); border := 4;
                    data := v; fit := true |};
       img_fill_color := "black"; img_back_color := "white";
       img_path := resolve_output_file w args |} in
  result (get_invitation_url w args) = Returned v ->
  create_qr_code w v (resolve_output_file w args) (size args) =
    ([SaveImage img],
     match save_raises w img with
     | None => Returned (resolve_output_file w args)
     | Some e => Raised e
     end)
  /\ images (trace (main w cl)) = [img]
  /\ match save_raises w img with
     | None =>
         saved_images w (trace (main w cl)) = [img]
         /\ In (Print ("  Output: " +:+ abspath w (resolve_output_file w args)))
              (trace (main w cl))
     | Some e =>
         saved_images w (trace (main w cl)) = []
         /\ main w cl =
              (trace (get_invitation_url w args)
                 ++ [Print "Generating QR code..."; SaveImage img],
               Raised e)
     end.
Proof.
  intros args img Hget.
  change img with (spec_image w cl v) in *. clear img.
  split; [| split].
  - unfold create_qr_code, library_call. cbn zeta.
    change (qr_image v _ _) with (spec_image w cl v).
    by destruct (save_raises w (spec_image w cl v)).
  - rewrite images_main. cbn zeta. fold args. by rewrite Hget.
  - pose proof (saved_images_main w cl v Hget) as Hsaved.
    destruct (save_raises w (spec_image w cl v)) as [e |] eqn:Hsave.
    + split; [exact Hsaved |]. unfold main, main_args. fold args.
      destruct (get_invitation_url w args) as [t o]. cbn in Hget. subst o.
      cbn [bind trace fst].
      by rewrite (generate_image_failure w args (resolve_output_file w args) v e Hsave).
    + split; [exact Hsaved |]. rewrite trace_main. cbn zeta. fold args.
      rewrite Hget. apply in_or_app. right.
      destruct (generate_image_saved w args (resolve_output_file w args) v Hsave)
        as [t ->].
      cbn. tauto.
Qed.

Lemma file_qr_parameters_witness :
  let w := Sample.world true None (PostRaises "unreachable") in
  let cl := direct_with_size "https://example.com?oob=ABC123" 3 in
  images (trace (main w cl)) =
    [{| img_qr := {| version := 1; error_correction := ERROR_CORRECT_L;
                     box_size := 3; border := 4;
                     data := VStr "https://example.com?oob=ABC123"; fit := true |};
        img_fill_color := "black"; img_back_color := "white";
        img_path := "qr_20240102_030405.png" |}].
Proof.
  intros w cl.
  apply (file_qr_parameters w cl (VStr "https://example.com?oob=ABC123")).
  reflexivity.
Defined.

(** C7 as the specification states it fails for a box size that the
    library refuses: with [--size 0] the constructor [QRCode(...)] raises
    and no image is written. *)
Lemma size_zero_saves_nothing :
  let w := checked_box_size (Sample.world true None (PostRaises "unreachable")) in
  let cl := direct_with_size "https://example.com?oob=ABC123" 0 in
  ~ every_size_saves_contract w cl.
Proof.
  intros w cl H. specialize (H _ eq_refl eq_refl eq_refl).
  vm_compute in H. discriminate.
Qed.

(** The run of [--size 0]: it ends in the library's exception right after
    "Generating QR code...". *)
Example size_zero_run :
  let w := checked_box_size (Sample.world true None (PostRaises "unreachable")) in
  let cl := direct_with_size "https://example.com?oob=ABC123" 0 in
  saved_images w (trace (main w cl)) = []
  /\ stdout (trace (main w cl)) = [Print "Generating QR code..."]
  /\ result (main w cl) =
       Raised (LibraryError "Invalid box size (was 0, expected larger than 0)").
Proof. repeat split. Qed.

(* ===================================================================== *)
(** ** Reporting (specification, section 4.4) *)
(* ===================================================================== *)


(** How a whole run returns. *)
Lemma main_returned (w : World) (cl : CommandLine) :
  result (main w cl) = Returned tt ->
  let args := parse_args w cl in
  exists url : string,
    result (get_invitation_url w args) = Returned (VStr url)
    /\ stdout (trace (main w cl)) =
         stdout (trace (get_invitation_url w args))
           ++ report w args (resolve_output_file w args) url
    /\ images (trace (main w cl)) =
         [qr_image (VStr url) (resolve_output_file w args) (size args)].
Proof.
  intros Hmain args.
  pose proof (images_main w cl) as Himages. pose proof (trace_main w cl) as Htrace.
  rewrite result_main in Hmain. cbn zeta in *. fold args in Hmain, Himages, Htrace.
  destruct (result (get_invitation_url w args)) as [v | s | e]; try done.
  destruct (generate_returned w _ _ _ Hmain) as (url & -> & Hout).
  exists url. split; [done |]. split; [| done].
  by rewrite Htrace, stdout_app, Hout.
Qed.



(** *** What the two encodings leave in the link *)

Lemma all_chars_app (p : ascii -> bool) (s t : string) :
  all_chars p (s +:+ t) = all_chars p s && all_chars p t.
Proof. induction s as [| c s IH]; simpl; [done |]. by rewrite IH, andb_assoc. Qed.

Lemma all_chars_impl (p q : ascii -> bool) (s : string) :
  (forall c, p c = true -> q c = true) ->
  all_chars p s = true -> all_chars q s = true.
Proof.
  intros Hpq. induction s as [| c s IH]; cbn; [done |].
  rewrite !andb_true_iff. intros [Hc Hs]. auto.
Qed.

(** The escape of a byte is a percent sign and two safe characters. *)
Lemma percent_chars (c : ascii) :
  all_chars (fun x => Urllib.always_safe x || Ascii.eqb x "/" || Ascii.eqb x "%")
    (Urllib.percent c) = true.
Proof. destruct c as [[] [] [] [] [] [] [] []]; reflexivity. Qed.

(** [quote] leaves nothing but unreserved characters, slashes and its own
    percent signs. *)
Lemma quote_chars (s : string) :
  all_chars (fun x => Urllib.always_safe x || Ascii.eqb x "/" || Ascii.eqb x "%")
    (Urllib.quote s) = true.
Proof.
  induction s as [| c s IH]; cbn [Urllib.quote]; [done |].
  destruct (Urllib.always_safe c || Ascii.eqb c "/") eqn:Hc.
  - cbn [all_chars]. by rewrite Hc, IH.
  - by rewrite all_chars_app, percent_chars, IH.
Qed.

(** The only reserved character [quote] lets through is the slash. *)
Lemma quote_escapes_reserved (s : string) :
  all_chars (fun x => negb (reserved x) || Ascii.eqb x "/") (Urllib.quote s) = true.
Proof.
  apply all_chars_impl with (2 := quote_chars s).
  intros [[] [] [] [] [] [] [] []]; cbv; congruence.
Qed.

(** Without [requests] the ampersands are gone, and that is all. *)
Lemma replace_ampersand_chars (s : string) :
  all_chars (fun x => negb (Ascii.eqb x "&")) (replace_char "&" "%26" s) = true.
Proof.
  induction s as [| c s IH]; cbn [replace_char]; [done |].
  destruct (Ascii.eqb c "&") eqn:Hc.
  - by rewrite all_chars_app, IH.
  - cbn [all_chars]. by rewrite Hc, IH.
Qed.

(** C9, amended.  The link a successful run prints is
    [https://api.qrserver.com/v1/create-qr-code/?size=300x300&data=]
    followed by the invitation URL encoded in one of two ways.  With
    [requests] installed it is [quote]d: every byte other than an ASCII
    letter, a digit, [_], [.], [-], [~] and [/] is percent-encoded, so the
    slash is the only reserved character left.  Without [requests] only
    the ampersands are replaced, by [%26]. *)
Theorem link_encoding (w : World) (cl : CommandLine) :
  result (main w cl) = Returned tt ->
  exists url : string,
    map (fun img => data (img_qr img)) (images (trace (main w cl))) = [VStr url]
    /\ In (PrintStr "" (VStr url)) (trace (main w cl))
    /\ In (Print (qrserver_link (encoded w url))) (trace (main w cl))
    /\ if requests_installed w
       then encoded w url = Urllib.quote url
            /\ all_chars (fun x => negb (reserved x) || Ascii.eqb x "/")
                 (encoded w url) = true
       else encoded w url = replace_char "&" "%26" url
            /\ all_chars (fun x => negb (Ascii.eqb x "&")) (encoded w url) = true.
Proof.
  intros Hmain.
  destruct (main_returned w cl Hmain) as (url & _ & Hout & Himages).
  exists url. split; [by rewrite Himages |].
  assert (forall e, In e (report w (parse_args w cl)
                            (resolve_output_file w (parse_args w cl)) url) ->
                    In e (trace (main w cl))) as Hin.
  { intros e He. apply (filter_In is_stdout e (trace (main w cl))).
    fold (stdout (trace (main w cl))). rewrite Hout. apply in_or_app. by right. }
  split; [| split].
  - apply Hin. unfold report. rewrite !in_app_iff. right. right. cbn. tauto.
  - apply Hin. unfold report. rewrite !in_app_iff. right. right. cbn. tauto.
  - unfold encoded. destruct (requests_installed w); split; try done.
    + apply quote_escapes_reserved.
    + apply replace_ampersand_chars.
Qed.

Lemma link_encoding_witness :
  let w := Sample.world true None (PostRaises "unreachable") in
  let cl := Sample.direct "https://example.com?oob=ABC123" in
  exists url : string,
    map (fun img => data (img_qr img)) (images (trace (main w cl))) = [VStr url]
    /\ In (PrintStr "" (VStr url)) (trace (main w cl))
    /\ In (Print (qrserver_link (encoded w url))) (trace (main w cl))
    /\ encoded w url = Urllib.quote url
    /\ all_chars (fun x => negb (reserved x) || Ascii.eqb x "/") (encoded w url) = true.
Proof.
  intros w cl. apply (link_encoding w cl). reflexivity.
Defined.

(** C9 as the specification states it fails in the branch taken without
    [requests]: for [https://example.com?oob=ABC123] the link ends in the
    URL as it is, with its colon, slashes, question mark and equals
    sign. *)
Lemma fallback_link_keeps_reserved_characters :
  ~ link_fully_escaped (Sample.world false None (PostRaises "unreachable"))
      (Sample.direct "https://example.com?oob=ABC123").
Proof.
  intros H.
  specialize (H "https://example.com?oob=ABC123"%string eq_refl).
  assert (all_chars (fun c => negb (reserved c)) "https://example.com?oob=ABC123" = true)
    as Habsurd; [| by vm_compute in Habsurd].
  apply H. vm_compute. tauto.
Qed.

(** The specification's own example with [requests] installed: every
    reserved character but the slash is escaped. *)
Example quoted_link :
  encoded (Sample.world true None (PostRaises "unreachable"))
    "https://example.com?oob=ABC123"
  = "https%3A//example.com%3Foob%3DABC123"%string.
Proof. reflexivity. Qed.

(* ===================================================================== *)
(** ** Both sources on the command line *)
(* ===================================================================== *)

(** In API mode the URL the script goes on with is the [invitationUrl] of
    the object the server sent. *)
Lemma get_invitation_url_api_returned (w : World) (args : Namespace) (v : value) :
  from_api args = true ->
  result (get_invitation_url w args) = Returned v ->
  exists (r : Response) (d : gmap string value),
    post w (the_request args) = PostReturns r
    /\ body r = JsonValue (VDict d)
    /\ v = default VNone (d !! "invitationUrl").
Proof.
  intros Hapi.
  destruct (str_truthy (api_key args)) eqn:Hkey;
    [| by rewrite get_invitation_url_no_key].
  rewrite get_invitation_url_api, create_invitation_from_api_cases by done.
  destruct (requests_installed w); [| done].
  cbn zeta. fold (the_request args).
  destruct (post w (the_request args)) as [msg | resp]; [done |].
  destruct (http_error_msg resp); [done |].
  destruct (body resp) as [[| ? | ? | ? | ? | ? | d] | msg] eqn:Hbody; try done.
  destruct (default (VDict ∅) (d !! "outOfBandRecord"))
    as [| ? | ? | ? | ? | ? | record]; try done.
  cbn [result snd]. intros [= <-]. by exists resp, d.
Qed.

(** In API mode with a key, the run opens with the status lines of the API
    path. *)
Lemma get_invitation_url_api_banner (w : World) (args : Namespace) :
  from_api args = true ->
  str_truthy (api_key args) = true ->
  exists t, trace (get_invitation_url w args) = api_banner args ++ t.
Proof.
  intros Hapi Hkey. rewrite get_invitation_url_api by done.
  destruct (create_invitation_from_api w _ _ _) as [t [v | s | e]];
    [| by exists t ..].
  destruct v as [| ? | ? | ? | ? | ? | d]; try by exists t.
  destruct (default (VDict ∅) (d !! "outOfBandRecord")); by eexists.
Qed.

(** C10.  With [--from-api] and an API key, a positional invitation URL
    changes nothing: the run is the run of the same command line without
    it.  No usage error is reported.  The run takes the API path: it opens
    with the status lines "Creating invitation via API..." and, with
    [requests] installed, issues the POST.  The one image call of the run
    is made from the [invitationUrl] of the server's answer: whenever the
    server answers 2xx with an object (whose [outOfBandRecord] is absent or
    an object), the image calls of the run are exactly the one for that
    value, and in no run is an image made from anything else. *)
Theorem from_api_overrides_positional_url (w : World) (cl : CommandLine) :
  let args := parse_args w cl in
  cl_from_api cl = true ->
  str_truthy (api_key args) = true ->
  main w cl = main w (without_invitation_url cl)
  /\ Forall (fun e => ~ usage_event e) (trace (main w cl))
  /\ (exists t, trace (main w cl) = api_banner args ++ t)
  /\ posts (trace (main w cl)) = (if requests_installed w then [the_request args] else [])
  /\ Forall (fun img =>
               exists (r : Response) (d : gmap string value),
                 post w (the_request args) = PostReturns r
                 /\ body r = JsonValue (VDict d)
                 /\ data (img_qr img) = default VNone (d !! "invitationUrl"))
       (images (trace (main w cl)))
  /\ (forall (r : Response) (d record : gmap string value),
        requests_installed w = true ->
        post w (the_request args) = PostReturns r ->
        200 <= status_code r < 300 ->
        body r = JsonValue (VDict d) ->
        default (VDict ∅) (d !! "outOfBandRecord") = VDict record ->
        images (trace (main w cl)) =
          [spec_image w cl (default VNone (d !! "invitationUrl"))]).
Proof.
  intros args Hapi Hkey. split; [| split; [| split; [| split; [| split]]]].
  - unfold main, main_args, get_invitation_url.
    cbn [parse_args without_invitation_url from_api cl_from_api].
    by rewrite Hapi.
  - rewrite trace_main. cbn zeta. fold args. apply Forall_app. split.
    + apply List.Forall_forall. intros e He Hu.
      exact (get_invitation_url_api_no_usage_event w args e Hapi Hu He).
    + destruct (result (get_invitation_url w args)); [| done ..].
      apply List.Forall_forall. intros e He Hu.
      exact (generate_no_usage_event w _ _ _ e Hu He).
  - rewrite trace_main. cbn zeta. fold args.
    destruct (get_invitation_url_api_banner w args Hapi Hkey) as [t ->].
    eexists. by rewrite <- app_assoc.
  - rewrite posts_main. cbn zeta. fold args.
    change (from_api args) with (cl_from_api cl). by rewrite Hapi, Hkey.
  - rewrite images_main. cbn zeta. fold args.
    destruct (result (get_invitation_url w args)) as [v | s | e] eqn:Hget; [| done ..].
    repeat constructor.
    destruct (get_invitation_url_api_returned w args v Hapi Hget) as (r & d & ? & ? & ->).
    by exists r, d.
  - intros r d record Hreq Hpost Hstatus Hbody Hrecord.
    rewrite images_main. cbn zeta. fold args.
    rewrite (get_invitation_url_answered w args r d) by done.
    by rewrite Hrecord.
Qed.

Lemma from_api_overrides_positional_url_witness :
  let w := Sample.world true None
             (Sample.response 200 "OK" (JsonValue Sample.invitation)) in
  let cl := Sample.api_and_url "https://example.com?oob=ABC123" in
  main w cl = main w (without_invitation_url cl)
  /\ posts (trace (main w cl)) = [the_request (parse_args w cl)]
  /\ images (trace (main w cl)) = [spec_image w cl (VStr "https://x?oob=Y")].
Proof.
  intros w cl.
  destruct (from_api_overrides_positional_url w cl eq_refl eq_refl)
    as (Hsame & _ & _ & Hposts & _ & Himages).
  split; [exact Hsame |]. split; [exact Hposts |].
  assert (200 <= 200 < 300) as Hstatus by lia.
  exact (Himages
           {| status_code := 200; reason := "OK";
              url := "http://localhost:8004/didcomm/oob/create-invitation";
              body := JsonValue Sample.invitation |}
           (<["invitationUrl" := VStr "https://x?oob=Y"]>
              (<["outOfBandRecord" := VDict {[ "id" := VStr "rec-1" ]}]> ∅))
           {[ "id" := VStr "rec-1" ]}
           eq_refl eq_refl Hstatus eq_refl eq_refl).
Defined.

(** The run of testable property 4 with a URL put in front: the image is
    made from the server's URL, not from the positional one. *)
Example api_and_url_image :
  map (fun img => data (img_qr img))
    (images (trace (main (Sample.world true None
                            (Sample.response 200 "OK" (JsonValue Sample.invitation)))
                         (Sample.api_and_url "https://example.com?oob=ABC123"))))
  = [VStr "https://x?oob=Y"].
Proof. reflexivity. Qed.

(* ===================================================================== *)
(** ** The first testable property of the specification, run *)
(* ===================================================================== *)

(** [generate-qr.py "https://example.com?oob=ABC123"] at 03:04:05 on
    2024-01-02 with all libraries installed. *)
Example direct_run :
  main (Sample.world true None (PostRaises "unreachable"))
       (Sample.direct "https://example.com?oob=ABC123")
  = ([Print "Generating QR code...";
      SaveImage
        {| img_qr := {| version := 1; error_correction := ERROR_CORRECT_L;
                        box_size := 10; border := 4;
                        data := VStr "https://example.com?oob=ABC123";
                        fit := true |};
           img_fill_color := "black"; img_back_color := "white";
           img_path := "qr_20240102_030405.png" |};
      Print "  Output: /work/qr_20240102_030405.png";
      Print "";
      Print "Invitation URL:";
      PrintStr "" (VStr "https://example.com?oob=ABC123");
      Print "";
      Print "Online QR Generator:";
      Print "https://api.qrserver.com/v1/create-qr-code/?size=300x300&data=https%3A//example.com%3Foob%3DABC123";
      Print "";
      Print "Done! Scan the QR code with your mobile wallet."],
     Returned tt).
Proof. reflexivity. Qed.

(* ===================================================================== *)
(** ** Beyond the specification: the terminal rendering *)
(* ===================================================================== *)

Lemma terminal_renderings_app t t' :
  terminal_renderings (t ++ t') = terminal_renderings t ++ terminal_renderings t'.
Proof. unfold terminal_renderings. induction t as [| [] t IH]; cbn; by rewrite ?IH. Qed.

Lemma terminal_renderings_get_invitation_url (w : World) args :
  terminal_renderings (trace (get_invitation_url w args)) = [].
Proof.
  destruct (from_api args) eqn:Hapi.
  - destruct (str_truthy (api_key args)) eqn:Hkey.
    + rewrite get_invitation_url_api, create_invitation_from_api_cases by done.
      destruct (requests_installed w); [| done].
      cbn. destruct (post w _) as [msg | resp]; [done |].
      destruct (http_error_msg resp); [done |].
      destruct (body resp) as [[| ? | ? | ? | ? | ? | d] | msg]; try done.
      unfold api_report.
      by destruct (default (VDict ∅) (d !! "outOfBandRecord")), (json args).
    + by rewrite get_invitation_url_no_key.
  - rewrite get_invitation_url_direct by done.
    by destruct (invitation_url args) as [[| c u] |].
Qed.

(** [generate] renders to the terminal once, with [--terminal], after the
    image was saved. *)
Lemma terminal_renderings_generate (w : World) args out v :
  terminal_renderings (trace (generate w args out v)) =
  if terminal args then
    match save_raises w (qr_image v out (size args)) with
    | None => [(terminal_qr v, true)]
    | Some _ => []
    end
  else [].
Proof.
  unfold generate, create_qr_code, print_terminal_qr, library_call, encode_url.
  destruct (save_raises w _), (terminal args), (print_ascii_raises w _),
    (requests_installed w), v; reflexivity.
Qed.

(** X1.  Without [--terminal] a run never renders to the terminal.  With
    it, a run renders at most once, and only after the image was saved
    without error: inverted, version 1 with [fit], error correction L,
    box size 1, border 2, and from the very data of the image file. *)
Theorem terminal_rendering (w : World) (cl : CommandLine) :
  (cl_terminal cl = false -> terminal_renderings (trace (main w cl)) = [])
  /\ Forall (fun r =>
               exists img,
                 images (trace (main w cl)) = [img]
                 /\ save_raises w img = None
                 /\ r = ({| version := 1; error_correction := ERROR_CORRECT_L;
                            box_size := 1; border := 2;
                            data := data (img_qr img); fit := true |}, true))
       (terminal_renderings (trace (main w cl)))
  /\ (length (terminal_renderings (trace (main w cl))) <= 1)%nat.
Proof.
  rewrite images_main, trace_main. cbn zeta.
  rewrite terminal_renderings_app, terminal_renderings_get_invitation_url.
  cbn [app].
  destruct (result (get_invitation_url w (parse_args w cl))) as [v | s | e];
    [| by repeat split; try constructor ..].
  rewrite terminal_renderings_generate.
  change (terminal (parse_args w cl)) with (cl_terminal cl).
  destruct (cl_terminal cl); [| by repeat split; try constructor].
  destruct (save_raises w _) eqn:Hsave; repeat split; try done; try by constructor.
  repeat constructor. eexists. by repeat split.
Qed.

Lemma terminal_rendering_witness :
  terminal_renderings
    (trace (main (Sample.world true None (PostRaises "unreachable"))
                 (Sample.direct "https://example.com?oob=ABC123"))) = [].
Proof.
  apply (terminal_rendering (Sample.world true None (PostRaises "unreachable"))
           (Sample.direct "https://example.com?oob=ABC123")).
  reflexivity.
Defined.

(* ===================================================================== *)
(** ** Beyond the specification: how a run ends *)
(* ===================================================================== *)





(* ===================================================================== *)
(** ** Beyond the specification: what each mode uses *)
(* ===================================================================== *)

(** X3.  Without [--from-api] the script is offline: the run is the same
    with no network, no [CREDEBL_API_KEY], and [--base-url], [--api-key],
    [--label] and [--json] taken off the command line; it issues no
    POST. *)
Theorem direct_mode_is_offline (w : World) (cl : CommandLine) :
  cl_from_api cl = false ->
  main w cl = main (offline w) (without_api_options cl)
  /\ posts (trace (main w cl)) = [].
Proof.
  intros Hapi. split.
  - unfold main, main_args, get_invitation_url.
    cbn [parse_args without_api_options from_api cl_from_api].
    by rewrite Hapi.
  - rewrite posts_main. cbn. by rewrite Hapi.
Qed.

Lemma direct_mode_is_offline_witness :
  posts (trace (main (Sample.world true (Some "k"%string)
                        (Sample.response 200 "OK" (JsonValue Sample.invitation)))
                     (Sample.direct "https://example.com?oob=ABC123"))) = [].
Proof.
  apply (direct_mode_is_offline
           (Sample.world true (Some "k"%string)
              (Sample.response 200 "OK" (JsonValue Sample.invitation)))
           (Sample.direct "https://example.com?oob=ABC123")).
  reflexivity.
Defined.

(** X4.  No run issues more than one POST or saves more than one image,
    however it ends; and in API mode an image is saved only after the
    POST was issued. *)
Theorem at_most_one_post_and_image (w : World) (cl : CommandLine) :
  (length (posts (trace (main w cl))) <= 1)%nat
  /\ (length (images (trace (main w cl))) <= 1)%nat
  /\ (cl_from_api cl = true ->
      images (trace (main w cl)) <> [] ->
      posts (trace (main w cl)) = [the_request (parse_args w cl)]).
Proof.
  rewrite posts_main, images_main. cbn zeta. split; [| split].
  - destruct (_ && _ && _); cbn; lia.
  - destruct (result _); cbn; lia.
  - intros Hapi. change (from_api (parse_args w cl)) with (cl_from_api cl).
    rewrite Hapi. cbn [andb].
    destruct (str_truthy (api_key (parse_args w cl))) eqn:Hkey.
    + destruct (requests_installed w) eqn:Hreq; [done |].
      rewrite get_invitation_url_api, create_invitation_from_api_cases, Hreq by done.
      done.
    + by rewrite get_invitation_url_no_key.
Qed.

Lemma at_most_one_post_and_image_witness :
  let w := Sample.world true (Some "k"%string)
             (Sample.response 200 "OK" (JsonValue Sample.invitation)) in
  posts (trace (main w Sample.api)) = [the_request (parse_args w Sample.api)].
Proof.
  intros w. apply (at_most_one_post_and_image w Sample.api); [reflexivity |].
  vm_compute. discriminate.
Defined.

(** X5.  A value given with [--api-key] hides [CREDEBL_API_KEY]: the run
    does not depend on the variable any more.  This holds for an empty
    value too: [--from-api --api-key ""] ends with the missing-key error
    even when the variable holds a key. *)
Theorem api_key_flag_hides_environment
    (w : World) (cl : CommandLine) (flag : string) (env : option string) :
  cl_api_key cl = Some flag ->
  main (with_environ env w) cl = main w cl
  /\ (cl_from_api cl = true -> flag = ""%string ->
      main w cl =
        ([Print "Error: API key required when using --from-api";
          Print "Set CREDEBL_API_KEY environment variable or use --api-key"],
         Exited 1)).
Proof.
  intros Hflag. split.
  - unfold main.
    assert (parse_args (with_environ env w) cl = parse_args w cl) as ->;
      [| reflexivity].
    unfold parse_args. by rewrite Hflag.
  - intros Hapi ->. apply main_exited, get_invitation_url_no_key; [done |].
    cbn. by rewrite Hflag.
Qed.

Lemma api_key_flag_hides_environment_witness :
  main (Sample.world true (Some "from-the-environment"%string) (PostRaises "unreachable"))
       (with_api_key "" Sample.api) =
    ([Print "Error: API key required when using --from-api";
      Print "Set CREDEBL_API_KEY environment variable or use --api-key"],
     Exited 1).
Proof.
  apply (api_key_flag_hides_environment
           (Sample.world true (Some "from-the-environment"%string)
              (PostRaises "unreachable"))
           (with_api_key "" Sample.api) "" None); reflexivity.
Defined.

(** X6.  An empty positional URL is no URL: [generate-qr.py ""] ends with
    the usage error, as if nothing had been given. *)
Theorem empty_url_is_a_usage_error (w : World) (cl : CommandLine) :
  cl_invitation_url cl = Some ""%string ->
  cl_from_api cl = false ->
  main w cl =
    ([Print "Error: Either provide invitation_url or use --from-api"; PrintHelp],
     Exited 1).
Proof.
  intros Hurl Hapi. apply main_exited.
  rewrite get_invitation_url_direct by done. cbn. by rewrite Hurl.
Qed.

Lemma empty_url_is_a_usage_error_witness :
  main (Sample.world true None (PostRaises "unreachable")) (Sample.direct "") =
    ([Print "Error: Either provide invitation_url or use --from-api"; PrintHelp],
     Exited 1).
Proof. apply empty_url_is_a_usage_error; reflexivity. Defined.

(* ===================================================================== *)
(** ** Beyond the specification: failures the script does not catch *)
(* ===================================================================== *)

Lemma generate_terminal_failure (w : World) args out v e :
  save_raises w (qr_image v out (size args)) = None ->
  terminal args = true ->
  print_ascii_raises w (terminal_qr v) = Some e ->
  generate w args out v =
    ([Print "Generating QR code...";
      SaveImage (qr_image v out (size args));
      Print ("  Output: " +:+ abspath w out);
      Print "";
      Print "Terminal QR Code:";
      PrintAscii (terminal_qr v) true],
     Raised e).
Proof.
  intros Hsave Hterminal Hascii.
  unfold generate, create_qr_code, print_terminal_qr, library_call. cbn zeta.
  by rewrite Hsave, Hterminal, Hascii.
Qed.

(** X7.  When saving the image raises, the run stops there: after
    "Generating QR code..." nothing more is printed (no output path, no
    invitation URL, no link) and the exception ends the process. *)
Theorem image_failure_stops_the_run
    (w : World) (cl : CommandLine) (v : value) (e : exn) :
  let args := parse_args w cl in
  let img := qr_image v (resolve_output_file w args) (size args) in
  result (get_invitation_url w args) = Returned v ->
  save_raises w img = Some e ->
  main w cl =
    (trace (get_invitation_url w args) ++ [Print "Generating QR code..."; SaveImage img],
     Raised e).
Proof.
  intros args img Hget Hsave. subst img args. unfold main, main_args.
  destruct (get_invitation_url w (parse_args w cl)) as [t r]. cbn in Hget. subst r.
  cbn [bind trace fst]. by rewrite generate_image_failure with (e := e).
Qed.

Lemma image_failure_stops_the_run_witness :
  let w := {| requests_installed := true; environ_CREDEBL_API_KEY := None;
              now := {| year := 2024; month := 1; day := 2;
                        hour := 3; minute := 4; second := 5 |};
              abspath := fun p => p;
              post := fun _ => PostRaises "unreachable";
              save_raises := fun _ => Some (LibraryError "unknown file extension");
              print_ascii_raises := fun _ => None |} in
  exists t, main w (Sample.direct "https://example.com?oob=ABC123") =
            (t, Raised (LibraryError "unknown file extension")).
Proof.
  intros w. eexists.
  apply (image_failure_stops_the_run w (Sample.direct "https://example.com?oob=ABC123")
           (VStr "https://example.com?oob=ABC123")
           (LibraryError "unknown file extension")); reflexivity.
Defined.

(** X8.  When the terminal rendering raises, the image file is already
    saved and its path printed; the run stops after "Terminal QR Code:"
    and neither the invitation URL nor the link is printed. *)
Theorem terminal_failure_comes_after_the_image
    (w : World) (cl : CommandLine) (v : value) (e : exn) :
  let args := parse_args w cl in
  let out := resolve_output_file w args in
  result (get_invitation_url w args) = Returned v ->
  save_raises w (qr_image v out (size args)) = None ->
  cl_terminal cl = true ->
  print_ascii_raises w (terminal_qr v) = Some e ->
  main w cl =
    (trace (get_invitation_url w args)
       ++ [Print "Generating QR code...";
           SaveImage (qr_image v out (size args));
           Print ("  Output: " +:+ abspath w out);
           Print "";
           Print "Terminal QR Code:";
           PrintAscii (terminal_qr v) true],
     Raised e).
Proof.
  intros args out Hget Hsave Hterminal Hascii. subst out args. unfold main, main_args.
  destruct (get_invitation_url w (parse_args w cl)) as [t r]. cbn in Hget. subst r.
  cbn [bind trace fst]. by rewrite generate_terminal_failure with (e := e).
Qed.

Lemma terminal_failure_comes_after_the_image_witness :
  let w := {| requests_installed := true; environ_CREDEBL_API_KEY := None;
              now := {| year := 2024; month := 1; day := 2;
                        hour := 3; minute := 4; second := 5 |};
              abspath := fun p => p;
              post := fun _ => PostRaises "unreachable";
              save_raises := fun _ => None;
              print_ascii_raises := fun _ => Some (LibraryError "closed stdout") |} in
  let cl := {| cl_invitation_url := Some "https://example.com?oob=ABC123"%string;
               cl_output_file := None; cl_from_api := false; cl_base_url := None;
               cl_api_key := None; cl_label := None; cl_output := None;
               cl_size := None; cl_terminal := true; cl_json := false |} in
  exists t, main w cl = (t, Raised (LibraryError "closed stdout")).
Proof.
  intros w cl. eexists.
  apply (terminal_failure_comes_after_the_image w cl
           (VStr "https://example.com?oob=ABC123") (LibraryError "closed stdout"));
    reflexivity.
Defined.

(** X9.  A 2xx answer whose body is not JSON is a network error like any
    other: "Error creating invitation: ..." with the decoder's message,
    exit status 1, no image. *)
Theorem undecodable_answer_is_a_network_failure
    (w : World) (cl : CommandLine) (r : Response) (msg : string) :
  let args := parse_args w cl in
  from_api args = true ->
  str_truthy (api_key args) = true ->
  requests_installed w = true ->
  post w (the_request args) = PostReturns r ->
  200 <= status_code r < 300 ->
  body r = JsonDecodeError msg ->
  main w cl =
    (api_banner args
       ++ [HttpPost (the_request args); Print ("Error creating invitation: " +:+ msg)],
     Exited 1).
Proof.
  intros args Hapi Hkey Hreq Hpost Hstatus Hbody.
  apply main_post_failed; [done .. |]. fold args.
  rewrite (create_invitation_answered w args r) by
    (try done; apply http_error_msg_below_400; lia).
  by rewrite Hbody.
Qed.

Lemma undecodable_answer_is_a_network_failure_witness :
  let w := Sample.world true (Some "k"%string)
             (Sample.response 200 "OK" (JsonDecodeError "Expecting value")) in
  main w Sample.api =
    (api_banner (parse_args w Sample.api)
       ++ [HttpPost (the_request (parse_args w Sample.api));
           Print "Error creating invitation: Expecting value"],
     Exited 1).
Proof.
  intros w.
  apply (undecodable_answer_is_a_network_failure w Sample.api
           {| status_code := 200; reason := "OK";
              url := "http://localhost:8004/didcomm/oob/create-invitation";
              body := JsonDecodeError "Expecting value" |} "Expecting value");
    [reflexivity | reflexivity | reflexivity | reflexivity | cbn; lia | reflexivity].
Defined.

(** X10.  A 2xx answer whose JSON body is not an object (a list, a
    string, a number, [null]) makes [invitation_data.get] raise: the run
    stops right after the POST with an uncaught AttributeError, before
    "Invitation created successfully!" and before any image. *)
Theorem non_object_answer_raises
    (w : World) (cl : CommandLine) (r : Response) (v : value) :
  let args := parse_args w cl in
  from_api args = true ->
  str_truthy (api_key args) = true ->
  requests_installed w = true ->
  post w (the_request args) = PostReturns r ->
  200 <= status_code r < 300 ->
  body r = JsonValue v ->
  not_an_object v ->
  main w cl = (api_banner args ++ [HttpPost (the_request args)], Raised AttributeError).
Proof.
  intros args Hapi Hkey Hreq Hpost Hstatus Hbody Hv.
  unfold main, main_args. fold args.
  rewrite get_invitation_url_api by done.
  rewrite (create_invitation_answered w args r) by
    (try done; apply http_error_msg_below_400; lia).
  rewrite Hbody. by destruct v.
Qed.

Lemma non_object_answer_raises_witness :
  let w := Sample.world true (Some "k"%string)
             (Sample.response 200 "OK" (JsonValue (VList []))) in
  main w Sample.api =
    (api_banner (parse_args w Sample.api)
       ++ [HttpPost (the_request (parse_args w Sample.api))],
     Raised AttributeError).
Proof.
  intros w.
  apply (non_object_answer_raises w Sample.api
           {| status_code := 200; reason := "OK";
              url := "http://localhost:8004/didcomm/oob/create-invitation";
              body := JsonValue (VList []) |} (VList []));
    [reflexivity | reflexivity | reflexivity | reflexivity | cbn; lia
    | reflexivity | exact I].
Defined.

(* ===================================================================== *)
(** ** Beyond the specification: the record of the invitation *)
(* ===================================================================== *)

(** X11.  When the answer has no [outOfBandRecord], or has one that is an
    object without [id], the record line reads "OOB Record ID: N/A" and
    the run goes on to generate the QR code from [invitationUrl]. *)
Theorem missing_record_id_prints_NA
    (w : World) (cl : CommandLine) (r : Response) (d : gmap string value) :
  let args := parse_args w cl in
  from_api args = true ->
  str_truthy (api_key args) = true ->
  requests_installed w = true ->
  post w (the_request args) = PostReturns r ->
  200 <= status_code r < 300 ->
  body r = JsonValue (VDict d) ->
  d !! "outOfBandRecord" = None
  \/ (exists record : gmap string value,
        d !! "outOfBandRecord" = Some (VDict record) /\ record !! "id" = None) ->
  get_invitation_url w args =
    (api_banner args ++ [HttpPost (the_request args)]
       ++ api_report args (VDict d) (VStr "N/A"),
     Returned (default VNone (d !! "invitationUrl")))
  /\ map (fun img => data (img_qr img)) (images (trace (main w cl)))
     = [default VNone (d !! "invitationUrl")].
Proof.
  intros args Hapi Hkey Hreq Hpost Hstatus Hbody Hrecord.
  assert (get_invitation_url w args =
    (api_banner args ++ [HttpPost (the_request args)]
       ++ api_report args (VDict d) (VStr "N/A"),
     Returned (default VNone (d !! "invitationUrl")))) as Hget.
  { rewrite (get_invitation_url_answered w args r d) by done.
    destruct Hrecord as [-> | (record & -> & Hid)]; cbn [default from_option id].
    - by rewrite lookup_empty.
    - by rewrite Hid. }
  split; [done |]. rewrite images_main. cbn zeta. fold args. by rewrite Hget.
Qed.

Lemma missing_record_id_prints_NA_witness :
  let w := Sample.world true (Some "k"%string)
             (Sample.response 200 "OK"
                (JsonValue (VDict {[ "invitationUrl" := VStr "https://x?oob=Y" ]}))) in
  map (fun img => data (img_qr img)) (images (trace (main w Sample.api)))
  = [default VNone
       (({[ "invitationUrl" := VStr "https://x?oob=Y" ]} : gmap string value)
          !! "invitationUrl")].
Proof.
  intros w.
  apply (missing_record_id_prints_NA w Sample.api
           {| status_code := 200; reason := "OK";
              url := "http://localhost:8004/didcomm/oob/create-invitation";
              body := JsonValue (VDict {[ "invitationUrl" := VStr "https://x?oob=Y" ]}) |}
           {[ "invitationUrl" := VStr "https://x?oob=Y" ]});
    [reflexivity | reflexivity | reflexivity | reflexivity | cbn; lia
    | reflexivity | left; reflexivity].
Defined.

(** X12.  When [outOfBandRecord] is present but is not an object (for
    instance [null]), the run dies on the record line: it has printed
    "Invitation created successfully!", then raises AttributeError, and no
    QR code is generated although the answer may carry a good
    [invitationUrl]. *)
Theorem non_object_record_aborts_the_run
    (w : World) (cl : CommandLine) (r : Response) (d : gmap string value) (x : value) :
  let args := parse_args w cl in
  from_api args = true ->
  str_truthy (api_key args) = true ->
  requests_installed w = true ->
  post w (the_request args) = PostReturns r ->
  200 <= status_code r < 300 ->
  body r = JsonValue (VDict d) ->
  d !! "outOfBandRecord" = Some x ->
  not_an_object x ->
  main w cl =
    (api_banner args ++ [HttpPost (the_request args)]
       ++ (if json args then [PrintJson (VDict d); Print ""] else [])
       ++ [Print "Invitation created successfully!"],
     Raised AttributeError)
  /\ images (trace (main w cl)) = [].
Proof.
  intros args Hapi Hkey Hreq Hpost Hstatus Hbody Hrecord Hx.
  assert (get_invitation_url w args =
    (api_banner args ++ [HttpPost (the_request args)]
       ++ (if json args then [PrintJson (VDict d); Print ""] else [])
       ++ [Print "Invitation created successfully!"],
     Raised AttributeError)) as Hget.
  { rewrite (get_invitation_url_answered w args r d), Hrecord by done.
    by destruct x. }
  split.
  - unfold main, main_args. fold args. by rewrite Hget.
  - rewrite images_main. cbn zeta. fold args. by rewrite Hget.
Qed.

Lemma non_object_record_aborts_the_run_witness :
  let d : gmap string value :=
    <["invitationUrl" := VStr "https://x?oob=Y"]> {[ "outOfBandRecord" := VNone ]} in
  let w := Sample.world true (Some "k"%string)
             (Sample.response 200 "OK" (JsonValue (VDict d))) in
  images (trace (main w Sample.api)) = [].
Proof.
  intros d w.
  apply (non_object_record_aborts_the_run w Sample.api
           {| status_code := 200; reason := "OK";
              url := "http://localhost:8004/didcomm/oob/create-invitation";
              body := JsonValue (VDict d) |} d VNone);
    [reflexivity | reflexivity | reflexivity | reflexivity | cbn; lia
    | reflexivity | reflexivity | exact I].
Defined.

(** X13.  No line of the script itself prints the API key: the key goes
    into the request and nowhere else.  Two runs that differ only in the
    (non-empty) value of [--api-key], and for which [requests.post] has the
    same outcome (the same answer, or the same exception with the same
    message), print the same, make the same image call and end the same.
    So the key can reach the output only through what [requests.post]
    returns or raises, as it does when [requests] refuses the header value
    and names it in its message. *)
Theorem api_key_is_not_printed (w : World) (cl : CommandLine) (k k' : string) :
  post w (the_request (parse_args w (with_api_key k cl)))
    = post w (the_request (parse_args w (with_api_key k' cl))) ->
  str_truthy k = true ->
  str_truthy k' = true ->
  stdout (trace (main w (with_api_key k cl)))
    = stdout (trace (main w (with_api_key k' cl)))
  /\ images (trace (main w (with_api_key k cl)))
     = images (trace (main w (with_api_key k' cl)))
  /\ result (main w (with_api_key k cl)) = result (main w (with_api_key k' cl)).
Proof.
  intros Hpost Hk Hk'.
  set (args := parse_args w (with_api_key k cl)) in *.
  set (args' := parse_args w (with_api_key k' cl)) in *.
  assert (stdout (trace (get_invitation_url w args))
          = stdout (trace (get_invitation_url w args'))
          /\ result (get_invitation_url w args) = result (get_invitation_url w args'))
    as [Hout Hres].
  { destruct (cl_from_api cl) eqn:Hapi.
    - rewrite !get_invitation_url_api, !create_invitation_from_api_cases by done.
      destruct (requests_installed w); [| done]. cbn zeta.
      fold (the_request args) (the_request args'). rewrite Hpost.
      destruct (post w (the_request args')) as [msg | resp]; [done |].
      destruct (http_error_msg resp); [done |].
      destruct (body resp) as [[| ? | ? | ? | ? | ? | d] | msg]; try done.
      unfold api_report. change (json args) with (cl_json cl).
      change (json args') with (cl_json cl).
      by destruct (default (VDict ∅) (d !! "outOfBandRecord")), (cl_json cl).
    - by rewrite !get_invitation_url_direct by done. }
  rewrite !images_main, !result_main, !trace_main, !stdout_app. cbn zeta.
  fold args args'. rewrite Hout, Hres.
  by destruct (result (get_invitation_url w args')).
Qed.

Lemma api_key_is_not_printed_witness :
  let w := Sample.world true None
             (Sample.response 200 "OK" (JsonValue Sample.invitation)) in
  stdout (trace (main w (with_api_key "first" Sample.api)))
  = stdout (trace (main w (with_api_key "second" Sample.api))).
Proof.
  intros w. apply (api_key_is_not_printed w Sample.api "first" "second"); reflexivity.
Defined.

(* ===================================================================== *)
(** ** Beyond the specification: what the link and the file name keep *)
(* ===================================================================== *)

Lemma unquote_percent (c : ascii) (rest : string) :
  unquote (Urllib.percent c +:+ rest) = String c (unquote rest).
Proof. destruct c as [[] [] [] [] [] [] [] []]; reflexivity. Qed.

Lemma unquote_kept (c : ascii) (rest : string) :
  Urllib.always_safe c || Ascii.eqb c "/" = true ->
  unquote (String c rest) = String c (unquote rest).
Proof.
  intros Hc. cbn [unquote].
  assert (Ascii.eqb c "%" = false) as ->; [| done].
  revert Hc. destruct c as [[] [] [] [] [] [] [] []]; cbv; congruence.
Qed.

(** Decoding a quoted string gives the string back. *)
Lemma unquote_quote (s : string) : unquote (Urllib.quote s) = s.
Proof.
  induction s as [| c s IH]; [done |]. cbn [Urllib.quote].
  destruct (Urllib.always_safe c || Ascii.eqb c "/") eqn:Hc.
  - by rewrite unquote_kept, IH.
  - by rewrite unquote_percent, IH.
Qed.

Lemma qrserver_link_inj (s t : string) : qrserver_link s = qrserver_link t -> s = t.
Proof. unfold qrserver_link. cbn. by intros [=]. Qed.

(** X14.  With [requests] installed the link loses nothing: two
    invitation URLs that give the same link are the same URL, and
    percent-decoding the data parameter gives the URL back byte for
    byte. *)
Theorem quoted_link_determines_the_url (w : World) (s t : string) :
  requests_installed w = true ->
  unquote (encoded w s) = s
  /\ (qrserver_link (encoded w s) = qrserver_link (encoded w t) -> s = t).
Proof.
  intros Hreq. unfold encoded. rewrite Hreq. split; [apply unquote_quote |].
  intros H%qrserver_link_inj. by rewrite <- (unquote_quote s), H, unquote_quote.
Qed.

Lemma quoted_link_determines_the_url_witness :
  unquote (encoded (Sample.world true None (PostRaises "unreachable"))
             "https://example.com?oob=ABC123&x=1")
  = "https://example.com?oob=ABC123&x=1"%string.
Proof.
  apply (quoted_link_determines_the_url
           (Sample.world true None (PostRaises "unreachable"))
           "https://example.com?oob=ABC123&x=1" "").
  reflexivity.
Defined.

Lemma string_app_assoc (s t u : string) : (s +:+ t) +:+ u = s +:+ (t +:+ u).
Proof.
  induction s as [| c s IH]; [reflexivity |].
  change (String c ((s +:+ t) +:+ u) = String c (s +:+ t +:+ u)). by f_equal.
Qed.

Lemma replace_char_app (old : ascii) (new s t : string) :
  replace_char old new (s +:+ t) = replace_char old new s +:+ replace_char old new t.
Proof.
  induction s as [| c s IH]; [reflexivity |].
  change (replace_char old new (String c (s +:+ t)) =
          replace_char old new (String c s) +:+ replace_char old new t).
  cbn [replace_char]. destruct (Ascii.eqb c old); rewrite IH.
  - by rewrite string_app_assoc.
  - reflexivity.
Qed.

(** X15.  Without [requests] the link can lose information: an ampersand
    and a literal "%26" at the same place of two URLs give the same
    link. *)
Theorem fallback_link_confuses_ampersand (w : World) (s t : string) :
  requests_installed w = false ->
  encoded w (s +:+ "&" +:+ t) = encoded w (s +:+ "%26" +:+ t).
Proof.
  intros Hreq. unfold encoded. rewrite Hreq.
  by rewrite !replace_char_app.
Qed.

Lemma fallback_link_confuses_ampersand_witness :
  encoded (Sample.world false None (PostRaises "unreachable")) ("a=1" +:+ "&" +:+ "b=2")
  = encoded (Sample.world false None (PostRaises "unreachable")) ("a=1" +:+ "%26" +:+ "b=2").
Proof. apply fallback_link_confuses_ampersand. reflexivity. Defined.

Lemma string_length_app (s t : string) :
  String.length (s +:+ t) = (String.length s + String.length t)%nat.
Proof.
  induction s as [| c s IH]; [reflexivity |].
  change (S (String.length (s +:+ t)) = S (String.length s + String.length t)).
  by rewrite IH.
Qed.

Lemma string_app_inj_length (s1 s2 t1 t2 : string) :
  String.length s1 = String.length t1 ->
  s1 +:+ s2 = t1 +:+ t2 -> s1 = t1 /\ s2 = t2.
Proof.
  revert t1. induction s1 as [| c s1 IH]; intros [| c' t1] Hlen; try done.
  change (String c (s1 +:+ s2) = String c' (t1 +:+ t2) -> String c s1 = String c' t1 /\ s2 = t2).
  intros [= -> H]. injection Hlen as Hlen.
  destruct (IH t1 Hlen H) as [-> ->]. done.
Qed.

(** A zero-padded field has its width and reads back as the number. *)
Lemma zfill_field (width : nat) (bound : nat) (z : Z) :
  forallb (fun n => let s := zfill width (str_of_int (Z.of_nat n)) in
                    (String.length s =? width)%nat
                    && (decimal_value 0 s =? Z.of_nat n))
    (seq 0 bound) = true ->
  0 <= z < Z.of_nat bound ->
  String.length (zfill width (str_of_int z)) = width
  /\ decimal_value 0 (zfill width (str_of_int z)) = z.
Proof.
  intros Hall Hz. rewrite forallb_forall in Hall.
  specialize (Hall (Z.to_nat z)). rewrite in_seq, Z2Nat.id in Hall by lia.
  cbn zeta in Hall. rewrite andb_true_iff, Nat.eqb_eq, Z.eqb_eq in Hall.
  apply Hall. lia.
Qed.

Lemma two_digits (z : Z) :
  0 <= z < 100 ->
  String.length (zfill 2 (str_of_int z)) = 2%nat
  /\ decimal_value 0 (zfill 2 (str_of_int z)) = z.
Proof. apply (zfill_field 2 100). by vm_compute. Qed.

Lemma four_digits (z : Z) :
  0 <= z < 10000 ->
  String.length (zfill 4 (str_of_int z)) = 4%nat
  /\ decimal_value 0 (zfill 4 (str_of_int z)) = z.
Proof. apply (zfill_field 4 (100 * 100)). by vm_compute. Qed.

(** The time stamp has fifteen characters and tells the time. *)
Lemma strftime_Ymd_HMS_inj (t t' : datetime) :
  valid_datetime t -> valid_datetime t' ->
  String.length (strftime_Ymd_HMS t) = 15%nat
  /\ (strftime_Ymd_HMS t = strftime_Ymd_HMS t' -> t = t').
Proof.
  intros (Hy & Hm & Hd & HH & HM & HS) (Hy' & Hm' & Hd' & HH' & HM' & HS').
  destruct (four_digits (year t)) as [Ly Vy]; [lia |].
  destruct (four_digits (year t')) as [Ly' Vy']; [lia |].
  destruct (two_digits (month t)) as [Lm Vm]; [lia |].
  destruct (two_digits (month t')) as [Lm' Vm']; [lia |].
  destruct (two_digits (day t)) as [Ld Vd]; [lia |].
  destruct (two_digits (day t')) as [Ld' Vd']; [lia |].
  destruct (two_digits (hour t)) as [LH VH]; [lia |].
  destruct (two_digits (hour t')) as [LH' VH']; [lia |].
  destruct (two_digits (minute t)) as [LM VM]; [lia |].
  destruct (two_digits (minute t')) as [LM' VM']; [lia |].
  destruct (two_digits (second t)) as [LS VS]; [lia |].
  destruct (two_digits (second t')) as [LS' VS']; [lia |].
  unfold strftime_Ymd_HMS. split.
  - rewrite !string_length_app, Ly, Lm, Ld, LH, LM, LS. reflexivity.
  - intros H.
    apply string_app_inj_length in H as [Ey H]; [| congruence].
    apply string_app_inj_length in H as [Em H]; [| congruence].
    apply string_app_inj_length in H as [Ed H]; [| congruence].
    apply string_app_inj_length in H as [_ H]; [| reflexivity].
    apply string_app_inj_length in H as [EH H]; [| congruence].
    apply string_app_inj_length in H as [EM ES]; [| congruence].
    destruct t, t'; cbn in *. congruence.
Qed.

(** X16.  When neither [--output] (or an empty one) nor a positional
    output file is given and the clock shows a year of four digits, the
    default file name has 22 characters and tells the second of the run:
    two runs get the same default name only if they start in the same
    second. *)
Theorem default_file_name_tells_the_second (w w' : World) (cl cl' : CommandLine) :
  opt_truthy (cl_output cl) = false -> cl_output_file cl = None ->
  opt_truthy (cl_output cl') = false -> cl_output_file cl' = None ->
  valid_datetime (now w) -> valid_datetime (now w') ->
  String.length (resolve_output_file w (parse_args w cl)) = 22%nat
  /\ (resolve_output_file w (parse_args w cl)
        = resolve_output_file w' (parse_args w' cl') ->
      now w = now w').
Proof.
  intros Ho Hp Ho' Hp' Hv Hv'.
  unfold resolve_output_file, py_or. cbn [parse_args output_file_flag output_file].
  rewrite Ho, Hp, Ho', Hp'.
  destruct (strftime_Ymd_HMS_inj (now w) (now w') Hv Hv') as [Hlen Hinj].
  split.
  - rewrite !string_length_app, Hlen. reflexivity.
  - intros H.
    apply string_app_inj_length in H as [_ H]; [| reflexivity].
    apply string_app_inj_length in H as [H _]; [auto |].
    rewrite Hlen. by destruct (strftime_Ymd_HMS_inj (now w') (now w) Hv' Hv) as [-> _].
Qed.

Lemma default_file_name_tells_the_second_witness :
  String.length
    (resolve_output_file (Sample.world true None (PostRaises "unreachable"))
       (parse_args (Sample.world true None (PostRaises "unreachable"))
          (Sample.direct "https://example.com?oob=ABC123"))) = 22%nat.
Proof.
  apply (default_file_name_tells_the_second
           (Sample.world true None (PostRaises "unreachable"))
           (Sample.world true None (PostRaises "unreachable"))
           (Sample.direct "https://example.com?oob=ABC123")
           (Sample.direct "https://example.com?oob=ABC123"));
    try reflexivity; unfold valid_datetime; cbn; lia.
Defined.
